(** * The revision workflow of the ESG proposal / course designer

    A shallow embedding of the revision workflow found in
    [CaseStrategy/old version/project_designer_v1.py] and
    [references/CourseDesigner/course_designer_rag.py] (the agent: three
    stage functions and a routing predicate) and of the session controller
    in [CaseStrategy/old version/gui_v1.py] and
    [references/CourseDesigner/simplified_gui_rag.py].

    The agent state is a Python dict, the stages are Python functions that
    may raise, and the graph is run by a checkpointing engine.  The file
    follows that layering:

    - [Py]      dynamically typed values, exceptions, the few built-ins used;
    - [Agent]   the stage functions and [should_continue];
    - [Engine]  channels with reducers, checkpoints, invoke / update_state;
    - [Gui]     run_agent, get_disp_state, get_state, copy_state, ...;
    - [Views], [Samples]  predicates and sample sessions used in statements;
    - [Sessions]  the controller driven through a sequence of actions;
    - [Params]  the parameter form of the interface: area lists, file names;
    - [ChannelFacts], [StageFacts], [EngineFacts], [GuiFacts]  lemmas;
    - the properties C1 to C10, then further properties X1 to X12 of the
      stages, the routing, the controller and the parameter form. *)

From stdpp Require Import gmap strings list fin_maps pretty.
From Stdlib Require Import ZArith Ascii.

Local Open Scope Z_scope.

(* ===================================================================== *)
(** * Python values                                                       *)
(* ===================================================================== *)

Module Py.

(** A retrieved document, the dict built by [retrieve_relevant_documents]:
    ["content"], ["source"] and the loader's ["metadata"]. *)
Record doc := Doc {
  content : string;
  source : string;
  metadata : list (string * string)
}.

(** The values a state field holds at run time.  The [TypedDict] gives the
    intended types, but nothing enforces them: a field edited from a text
    box holds a [str] whatever its declared type. *)
Inductive value :=
  | VNone
  | VInt (z : Z)
  | VStr (s : string)
  | VDocs (ds : list doc).

Inductive exn :=
  | TypeError
  | ValueError
  | IndexError
  | InvalidUpdateError
  | GraphRecursionError
  | GenerationError.

Inductive result (A : Type) :=
  | Ok (a : A)
  | Raise (e : exn).
Arguments Ok {A} a.
Arguments Raise {A} e.

Definition bind {A B} (r : result A) (k : A → result B) : result B :=
  match r with
  | Ok a => k a
  | Raise e => Raise e
  end.

(** [try: body except Exception: handler] *)
Definition try_except {A} (body : result A) (handler : exn → result A) : result A :=
  match body with
  | Ok a => Ok a
  | Raise e => handler e
  end.

Definition is_ok {A} (r : result A) : bool :=
  match r with Ok _ => true | Raise _ => false end.

#[global] Instance doc_eq_dec : EqDecision doc.
Proof. solve_decision. Defined.
#[global] Instance value_eq_dec : EqDecision value.
Proof. solve_decision. Defined.
#[global] Instance exn_eq_dec : EqDecision exn.
Proof. solve_decision. Defined.

(** ** Truth value: [if x:], [not x] *)
Definition truthy (v : value) : bool :=
  match v with
  | VNone => false
  | VInt z => negb (z =? 0)
  | VStr s => negb (String.eqb s EmptyString)
  | VDocs ds => match ds with [] => false | _ => true end
  end.

(** ** [a + b] (also [operator.add]) *)
Definition add (a b : value) : result value :=
  match a, b with
  | VInt x, VInt y => Ok (VInt (x + y))
  | VStr x, VStr y => Ok (VStr (x +:+ y))
  | VDocs x, VDocs y => Ok (VDocs (x ++ y))
  | _, _ => Raise TypeError
  end.

(** ** [a > b]

    Lists compare element by element: the first pair of unequal elements
    decides, and two dicts are not ordered (TypeError); without such a pair
    the longer list is the greater. *)
Fixpoint docs_gt (x y : list doc) : result bool :=
  match x, y with
  | [], _ => Ok false
  | _ :: _, [] => Ok true
  | a :: x', b :: y' => if decide (a = b) then docs_gt x' y' else Raise TypeError
  end.

Definition gt (a b : value) : result bool :=
  match a, b with
  | VInt x, VInt y => Ok (y <? x)
  | VStr x, VStr y => Ok (String.ltb y x)
  | VDocs x, VDocs y => docs_gt x y
  | _, _ => Raise TypeError
  end.

(** ** [int(s)] on a string

    Surrounding white space is dropped, one sign is allowed, then decimal
    digits follow, single underscores allowed between digits. *)
Definition is_space (c : ascii) : bool :=
  let n := nat_of_ascii c in
  ((9 <=? n) && (n <=? 13) || (28 <=? n) && (n <=? 32))%nat.

Definition digit_of (c : ascii) : option Z :=
  let n := nat_of_ascii c in
  if ((48 <=? n) && (n <=? 57))%nat then Some (Z.of_nat n - 48) else None.

Fixpoint lstrip (s : string) : string :=
  match s with
  | String c s' => if is_space c then lstrip s' else s
  | EmptyString => EmptyString
  end.

Definition strip (s : string) : string :=
  String.rev (lstrip (String.rev (lstrip s))).

Fixpoint parse_digits (s : string) (acc : Z) (after_digit : bool) : option Z :=
  match s with
  | EmptyString => if after_digit then Some acc else None
  | String c s' =>
      match digit_of c with
      | Some d => parse_digits s' (10 * acc + d) true
      | None =>
          if Ascii.eqb c "_" then
            if after_digit then parse_digits s' acc false else None
          else None
      end
  end.

Definition int_of_string (s : string) : result Z :=
  let body := strip s in
  let parsed :=
    match body with
    | String "+" rest => parse_digits rest 0 false
    | String "-" rest => Z.opp <$> parse_digits rest 0 false
    | _ => parse_digits body 0 false
    end in
  match parsed with
  | Some z => Ok z
  | None => Raise ValueError
  end.

(** ** [int(v)] for the values of [value] *)
Definition int (v : value) : result Z :=
  match v with
  | VInt z => Ok z
  | VStr s => int_of_string s
  | VNone => Raise TypeError
  | VDocs _ => Raise TypeError
  end.

(** ** [repr] and [str] *)
Definition hex_digit (n : nat) : ascii :=
  match n with
  | 0 => "0" | 1 => "1" | 2 => "2" | 3 => "3" | 4 => "4" | 5 => "5"
  | 6 => "6" | 7 => "7" | 8 => "8" | 9 => "9" | 10 => "a" | 11 => "b"
  | 12 => "c" | 13 => "d" | 14 => "e" | _ => "f"
  end%nat%char.

Fixpoint contains_char (c : ascii) (s : string) : bool :=
  match s with
  | EmptyString => false
  | String d s' => Ascii.eqb c d || contains_char c s'
  end.

(** One character of a string literal written between [quote]s. *)
Definition repr_char (quote c : ascii) : string :=
  let n := nat_of_ascii c in
  if Ascii.eqb c "\" then "\\"
  else if Ascii.eqb c quote then String "\" (String c EmptyString)
  else if (n =? 9)%nat then "\t"
  else if (n =? 10)%nat then "\n"
  else if (n =? 13)%nat then "\r"
  else if ((n <? 32) || (n =? 127))%nat then
    String "\" (String "x" (String (hex_digit (n / 16)) (String (hex_digit (n mod 16)) EmptyString)))
  else String c EmptyString.

Fixpoint repr_chars (quote : ascii) (s : string) : string :=
  match s with
  | EmptyString => EmptyString
  | String c s' => repr_char quote c +:+ repr_chars quote s'
  end.

Definition single_quote : ascii := ascii_of_nat 39.
Definition double_quote : ascii := ascii_of_nat 34.

(** Single quotes, unless the text has a single quote and no double one. *)
Definition repr_str (s : string) : string :=
  let quote :=
    if contains_char single_quote s && negb (contains_char double_quote s)
    then double_quote else single_quote in
  String quote (repr_chars quote s +:+ String quote EmptyString).

Fixpoint join (sep : string) (l : list string) : string :=
  match l with
  | [] => EmptyString
  | [x] => x
  | x :: l' => x +:+ sep +:+ join sep l'
  end.

Definition repr_entry (kv : string * string) : string :=
  repr_str kv.1 +:+ ": " +:+ repr_str kv.2.

Definition repr_doc (d : doc) : string :=
  "{" +:+ repr_entry ("content", content d) +:+ ", "
      +:+ repr_entry ("source", source d) +:+ ", "
      +:+ repr_str "metadata" +:+ ": {"
      +:+ join ", " (repr_entry <$> metadata d) +:+ "}}".

Definition repr (v : value) : string :=
  match v with
  | VNone => "None"
  | VInt z => pretty z
  | VStr s => repr_str s
  | VDocs ds => "[" +:+ join ", " (repr_doc <$> ds) +:+ "]"
  end.

(** [str(v)], also what an f-string prints for [{v}]. *)
Definition str (v : value) : string :=
  match v with
  | VStr s => s
  | _ => repr v
  end.

(** [repr] of a tuple of strings, as in [str(state.next)]: [()], [('a',)],
    [('a', 'b')]. *)
Definition repr_tuple (l : list string) : string :=
  match l with
  | [] => "()"
  | [x] => "(" +:+ repr_str x +:+ ",)"
  | _ => "(" +:+ join ", " (repr_str <$> l) +:+ ")"
  end.

(** ** [l[i]] and [l[i] = x] on a list, negative indices counting from the
    end, IndexError out of range. *)
Definition norm_index {A} (l : list A) (i : Z) : option nat :=
  let n := Z.of_nat (length l) in
  if (0 <=? i) && (i <? n) then Some (Z.to_nat i)
  else if (- n <=? i) && (i <? 0) then Some (Z.to_nat (n + i))
  else None.

Definition index {A} (l : list A) (i : Z) : result A :=
  match norm_index l i with
  | Some k => match l !! k with Some x => Ok x | None => Raise IndexError end
  | None => Raise IndexError
  end.

Definition set_index {A} (l : list A) (i : Z) (x : A) : result (list A) :=
  match norm_index l i with
  | Some k => Ok (<[k := x]> l)
  | None => Raise IndexError
  end.

(** ** [s.split(":")[-1]]: the text after the last colon. *)
Fixpoint last_segment_go (s acc : string) : string :=
  match s with
  | EmptyString => acc
  | String c s' =>
      if Ascii.eqb c ":" then last_segment_go s' EmptyString
      else last_segment_go s' (acc +:+ String c EmptyString)
  end.

Definition last_segment (s : string) : string := last_segment_go s EmptyString.

(** ** dicts *)
Abbreviation dict := (gmap string value).

(** [d.get(k, dflt)] *)
Definition get (d : dict) (k : string) (dflt : value) : value :=
  default dflt (d !! k).

End Py.

(* ===================================================================== *)
(** * The agent: stages and routing                                       *)
(* ===================================================================== *)

Module Agent.
Import Py.

(** The repository carries the same agent twice, with different node
    names and texts: the ESG proposal designer
    ([project_designer_v1.py]) and the course designer
    ([course_designer_rag.py]). *)
Inductive deployment := CaseStrategy | CourseDesigner.

Inductive node := Planner | Drafter | Finalizer.

#[global] Instance deployment_eq_dec : EqDecision deployment.
Proof. solve_decision. Defined.
#[global] Instance node_eq_dec : EqDecision node.
Proof. solve_decision. Defined.

(** The names given to [builder.add_node]. *)
Definition node_name (dep : deployment) (n : node) : string :=
  match n, dep with
  | Planner, _ => "planner"
  | Drafter, CaseStrategy => "drafter"
  | Drafter, CourseDesigner => "course designer"
  | Finalizer, CaseStrategy => "finalizer"
  | Finalizer, CourseDesigner => "reflect"
  end.

Definition nodes : list node := [Planner; Drafter; Finalizer].

(** The node registered under a name, if any ([self.nodes[name]]). *)
Definition node_of_name (dep : deployment) (s : string) : option node :=
  List.find (λ n, String.eqb (node_name dep n) s) nodes.

Definition draft_error_text : string := "Error occurred during content generation.".

Definition finalize_error_text (dep : deployment) : string :=
  match dep with
  | CaseStrategy => "Error occurred during finalization."
  | CourseDesigner => "Error occurred during reflection."
  end.

(** A dict display: the entries in the order they are written. *)
Definition mk_dict (entries : list (string * value)) : dict := list_to_map entries.

(** [plan_node].  [retrieved_docs] is what [retrieve_relevant_documents]
    gave for the task, [response] the text of [self.model.invoke(messages)],
    [None] when that call raises.  The call is not guarded here. *)
Definition plan_node (dep : deployment) (retrieved_docs : list doc)
    (response : option string) (state : dict) : result dict :=
  match response with
  | None => Raise GenerationError
  | Some content =>
      Ok (mk_dict [
        ("plan", VStr content);
        ("lnode", VStr (node_name dep Planner));
        ("draft", get state "draft" (VStr "no draft yet"));
        ("critique", get state "critique" (VStr "no critique yet"));
        ("revision_number", get state "revision_number" (VInt 0));
        ("max_revisions", get state "max_revisions" (VInt 2));
        ("count", VInt 1);
        ("task", get state "task" (VStr EmptyString));
        ("retrieved_docs", VDocs retrieved_docs)])
  end.

(** [draft_node] / [writer_node]: the body of the [try], then the handler,
    which evaluates the same two sums again. *)
Definition writer_node (dep : deployment) (response : option string)
    (state : dict) : result dict :=
  try_except
    (match response with
     | None => Raise GenerationError
     | Some content =>
         bind (add (get state "revision_number" (VInt 0)) (VInt 1)) (λ rev,
         bind (add (get state "count" (VInt 0)) (VInt 1)) (λ cnt,
         Ok (mk_dict [
           ("draft", VStr content);
           ("plan", get state "plan" (VStr EmptyString));
           ("critique", get state "critique" (VStr "no critique yet"));
           ("task", get state "task" (VStr EmptyString));
           ("revision_number", rev);
           ("max_revisions", get state "max_revisions" (VInt 2));
           ("lnode", VStr (node_name dep Drafter));
           ("count", cnt);
           ("retrieved_docs", get state "retrieved_docs" (VDocs []))])))
     end)
    (λ _,
       bind (add (get state "revision_number" (VInt 0)) (VInt 1)) (λ rev,
       bind (add (get state "count" (VInt 0)) (VInt 1)) (λ cnt,
       Ok (mk_dict [
         ("draft", VStr draft_error_text);
         ("plan", get state "plan" (VStr EmptyString));
         ("critique", get state "critique" (VStr EmptyString));
         ("task", get state "task" (VStr EmptyString));
         ("revision_number", rev);
         ("max_revisions", get state "max_revisions" (VInt 2));
         ("lnode", VStr (node_name dep Drafter));
         ("count", cnt);
         ("retrieved_docs", get state "retrieved_docs" (VDocs []))])))).

(** [finalize_node] / [reflection_node] *)
Definition reflection_node (dep : deployment) (response : option string)
    (state : dict) : result dict :=
  try_except
    (match response with
     | None => Raise GenerationError
     | Some content =>
         bind (add (get state "count" (VInt 0)) (VInt 1)) (λ cnt,
         Ok (mk_dict [
           ("critique", VStr content);
           ("draft", get state "draft" (VStr EmptyString));
           ("plan", get state "plan" (VStr EmptyString));
           ("task", get state "task" (VStr EmptyString));
           ("revision_number", get state "revision_number" (VInt 0));
           ("max_revisions", get state "max_revisions" (VInt 2));
           ("lnode", VStr (node_name dep Finalizer));
           ("count", cnt);
           ("retrieved_docs", get state "retrieved_docs" (VDocs []))]))
     end)
    (λ _,
       bind (add (get state "count" (VInt 0)) (VInt 1)) (λ cnt,
       Ok (mk_dict [
         ("critique", VStr (finalize_error_text dep));
         ("draft", get state "draft" (VStr EmptyString));
         ("plan", get state "plan" (VStr EmptyString));
         ("task", get state "task" (VStr EmptyString));
         ("revision_number", get state "revision_number" (VInt 0));
         ("max_revisions", get state "max_revisions" (VInt 2));
         ("lnode", VStr (node_name dep Finalizer));
         ("count", cnt);
         ("retrieved_docs", get state "retrieved_docs" (VDocs []))]))).

(** [should_continue]: [None] is [END], [Some Finalizer] the name of the
    critique node.  A comparison that raises ends the process. *)
Definition should_continue (state : dict) : option node :=
  match gt (get state "revision_number" (VInt 0)) (get state "max_revisions" (VInt 2)) with
  | Ok true => None
  | Ok false => Some Finalizer
  | Raise _ => None
  end.

(** The edges: [planner -> drafter], [finalizer -> drafter], and the
    conditional edge out of the drafter. *)
Definition next_after (n : node) (state : dict) : list node :=
  match n with
  | Planner => [Drafter]
  | Finalizer => [Drafter]
  | Drafter => match should_continue state with Some m => [m] | None => [] end
  end.

Definition entry_point : node := Planner.

(** [compile(..., interrupt_after=[...])]: all three nodes, in both files. *)
Definition interrupt_after : list node := [Planner; Drafter; Finalizer].

(** What the stages call out to: the chat model, one response per call
    (numbered from 0; [None]: the call raises), and the retriever, which
    catches its own failures and answers with a list. *)
Record env := Env {
  model_invoke : nat → option string;
  retrieve_relevant_documents : value → list doc
}.

Definition run_node (dep : deployment) (E : env) (n : node) (call : nat)
    (state : dict) : result dict :=
  match n with
  | Planner =>
      plan_node dep (retrieve_relevant_documents E (get state "task" (VStr EmptyString)))
        (model_invoke E call) state
  | Drafter => writer_node dep (model_invoke E call) state
  | Finalizer => reflection_node dep (model_invoke E call) state
  end.

End Agent.

(* ===================================================================== *)
(** * The engine: channels, checkpoints, invoke                           *)
(* ===================================================================== *)

(** The graph library is not part of the repository; this module covers
    what the sources use of it: a state graph over the keys of [AgentState]
    with a reducer on [count], compiled with a checkpointer and
    [interrupt_after], and the calls [invoke], [get_state],
    [get_state_history] and [update_state].  Checkpoint ids ([thread_ts])
    are sequence numbers in decimal, and the checkpoint that holds the
    input of a run has step 0, so that the steps of the nodes start at 1. *)
Module Engine.
Import Py Agent.

(** The keys of [AgentState]. *)
Definition channels : list string :=
  ["task"; "lnode"; "plan"; "draft"; "critique"; "revision_number";
   "max_revisions"; "count"; "retrieved_docs"].

(** A write to a channel.  [count] is [Annotated[int, operator.add]]: the
    written value is added to the stored one (0 when nothing is stored);
    every other key keeps the last value written. *)
Definition update_channel (k : string) (old : option value) (new : value) : result value :=
  if decide (k = "count") then add (default (VInt 0) old) new else Ok new.

Fixpoint apply_writes_on (keys : list string) (values writes : dict) : result dict :=
  match keys with
  | [] => Ok values
  | k :: keys' =>
      match writes !! k with
      | None => apply_writes_on keys' values writes
      | Some w =>
          bind (update_channel k (values !! k) w) (λ v,
          apply_writes_on keys' (<[k := v]> values) writes)
      end
  end.

(** The dict a node (or [update_state]) hands over is written channel by
    channel; keys that are no channel are dropped. *)
Definition apply_writes (values writes : dict) : result dict :=
  apply_writes_on channels values writes.

(** Where a checkpoint comes from ([metadata['source']], and the node named
    in [metadata['writes']]): the input of a run, a node run by the loop,
    or [update_state] acting as a node. *)
Inductive origin := SInput | SLoop (n : node) | SUpdate (n : node).

Record checkpoint := Checkpoint {
  ck_ts : string;          (* [config['configurable']['thread_ts']] *)
  ck_step : Z;             (* [metadata['step']] *)
  ck_source : origin;
  ck_values : dict;        (* [values] *)
  ck_next : list node      (* [next] *)
}.

(** The compiled graph with its checkpointer: one log per thread id, oldest
    checkpoint first; [clock] numbers the checkpoints, [calls] the model
    calls made so far. *)
Record graph := Graph {
  logs : gmap string (list checkpoint);
  clock : nat;
  calls : nat
}.

Definition empty_graph : graph := {| logs := ∅; clock := 0; calls := 0 |}.

Definition log_of (g : graph) (thread : string) : list checkpoint :=
  default [] (logs g !! thread).

Definition latest (g : graph) (thread : string) : option checkpoint :=
  last (log_of g thread).

Definition latest_values (g : graph) (thread : string) : dict :=
  match latest g thread with
  | Some c => ck_values c
  | None => ∅
  end.

Definition append_checkpoint (thread : string) (src : origin) (values : dict)
    (next : list node) (g : graph) : graph :=
  let log := log_of g thread in
  let step := match last log with Some c => ck_step c + 1 | None => 0 end in
  let c := {| ck_ts := pretty (clock g); ck_step := step; ck_source := src;
              ck_values := values; ck_next := next |} in
  {| logs := <[thread := log ++ [c]]> (logs g);
     clock := S (clock g);
     calls := calls g |}.

Definition count_call (g : graph) : graph :=
  {| logs := logs g; clock := clock g; calls := S (calls g) |}.

Definition recursion_limit : nat := 25.

(** One node run on the values of a checkpoint: the node's dict, written
    through the channels. *)
Definition exec_node (dep : deployment) (E : env) (n : node) (call : nat)
    (values : dict) : result dict :=
  bind (run_node dep E n call values) (apply_writes values).

(** The run loop of one [invoke]: run the next node on the latest values,
    write its result through the channels, save a checkpoint, stop when the
    node is in [interrupt_after] or when nothing is next.  [out] is the
    last state streamed, the value [invoke] returns. *)
Fixpoint run_loop (dep : deployment) (E : env) (fuel : nat) (thread : string)
    (g : graph) (out : option dict) : result (option dict) * graph :=
  match fuel with
  | O => (Raise GraphRecursionError, g)
  | S fuel' =>
      match latest g thread with
      | None => (Ok out, g)
      | Some c =>
          match ck_next c with
          | [] => (Ok out, g)
          | n :: _ =>
              let g1 := count_call g in
              match exec_node dep E n (calls g) (ck_values c) with
              | Raise e => (Raise e, g1)
              | Ok values' =>
                  let g2 := append_checkpoint thread (SLoop n) values' (next_after n values') g1 in
                  if bool_decide (n ∈ interrupt_after) then (Ok (Some values'), g2)
                  else run_loop dep E fuel' thread g2 (Some values')
              end
          end
      end
  end.

(** [graph.invoke(input, thread)].  With an input the run starts at the
    entry point: the input is written through the channels and saved as the
    first checkpoint of the run.  With [None] the thread resumes. *)
Definition invoke (dep : deployment) (E : env) (input : option dict) (thread : string)
    (g : graph) : result (option dict) * graph :=
  match input with
  | Some config =>
      match apply_writes (latest_values g thread) config with
      | Raise e => (Raise e, g)
      | Ok values =>
          run_loop dep E recursion_limit thread
            (append_checkpoint thread SInput values [entry_point] g) None
      end
  | None => run_loop dep E recursion_limit thread g None
  end.

(** [graph.update_state(thread, values, as_node=...)]: the values are
    written as if [as_node] had returned them, and a checkpoint is saved
    whose next node is the one that follows [as_node]. *)
Definition node_of_value (dep : deployment) (v : value) : option node :=
  match v with
  | VStr s => node_of_name dep s
  | _ => None
  end.

Definition update_state (dep : deployment) (thread : string) (values : dict)
    (as_node : value) (g : graph) : result unit * graph :=
  match node_of_value dep as_node with
  | None => (Raise InvalidUpdateError, g)
  | Some n =>
      match apply_writes (latest_values g thread) values with
      | Raise e => (Raise e, g)
      | Ok values' =>
          (Ok (), append_checkpoint thread (SUpdate n) values' (next_after n values') g)
      end
  end.

(** A [config]: the thread id, and the checkpoint id when one checkpoint is
    meant rather than the latest. *)
Record config := Config {
  thread_id_of : string;
  thread_ts_of : option string
}.

Record snapshot := Snapshot {
  values : dict;
  next : list node;
  config_of : config;
  step_of : Z
}.

Definition snapshot_of (thread : string) (c : checkpoint) : snapshot :=
  {| values := ck_values c; next := ck_next c;
     config_of := {| thread_id_of := thread; thread_ts_of := Some (ck_ts c) |};
     step_of := ck_step c |}.

Definition empty_snapshot (cfg : config) : snapshot :=
  {| values := ∅; next := []; config_of := cfg; step_of := -1 |}.

(** [graph.get_state(config)] *)
Definition get_state (g : graph) (cfg : config) : snapshot :=
  let log := log_of g (thread_id_of cfg) in
  let found :=
    match thread_ts_of cfg with
    | None => last log
    | Some ts => List.find (λ c, String.eqb (ck_ts c) ts) log
    end in
  match found with
  | Some c => snapshot_of (thread_id_of cfg) c
  | None => empty_snapshot cfg
  end.

(** The nodes the loop has run on a thread, oldest first. *)
Definition executed (g : graph) (thread : string) : list node :=
  omap (λ c, match ck_source c with SLoop n => Some n | _ => None end) (log_of g thread).

(** [graph.get_state_history(thread)]: newest first. *)
Definition get_state_history (g : graph) (cfg : config) : list snapshot :=
  snapshot_of (thread_id_of cfg) <$> reverse (log_of g (thread_id_of cfg)).

End Engine.

(* ===================================================================== *)
(** * The session controller                                              *)
(* ===================================================================== *)

Module Gui.
Import Py Agent Engine.

(** [self.partial_message] is a text that only grows; it is kept as the
    list of the pieces appended to it. *)
Inductive log_item :=
  | LResponse (r : option dict)     (* [str(self.response)] *)
  | LSeparator                      (* the dashed line *)
  | LError (e : exn)                (* ["Error in processing: ..."] *)
  | LCritical (e : exn).            (* ["Critical error occurred: ..."] *)

(** The controller object, with the graph it holds. *)
Record gui := Gui_ {
  graph_of : graph;
  partial_message : list log_item;
  response : option dict;
  iterations : list Z;
  threads : list Z;
  thread_id : Z;
  thread : config
}.

Definition max_iterations : Z := 10.

Definition thread_config (tid : Z) : config :=
  {| thread_id_of := pretty tid; thread_ts_of := None |}.

(** [__init__] *)
Definition init (g : graph) : gui :=
  {| graph_of := g; partial_message := []; response := Some ∅;
     iterations := []; threads := []; thread_id := -1;
     thread := thread_config (-1) |}.

Definition set_graph (g : graph) (w : gui) : gui :=
  {| graph_of := g; partial_message := partial_message w; response := response w;
     iterations := iterations w; threads := threads w; thread_id := thread_id w;
     thread := thread w |}.

Definition log (items : list log_item) (w : gui) : gui :=
  {| graph_of := graph_of w; partial_message := partial_message w ++ items;
     response := response w; iterations := iterations w; threads := threads w;
     thread_id := thread_id w; thread := thread w |}.

(** What [get_disp_state] returns. *)
Record disp := Disp {
  d_lnode : string;
  d_nnode : string;
  d_thread : Z;
  d_rev : Z;
  d_count : Z
}.

(** [int(x) if x is not None else 0], with [ValueError] and [TypeError]
    caught and answered by 0. *)
Definition coerce_int (v : value) : Z :=
  match v with
  | VNone => 0
  | _ => match int v with Ok z => z | Raise _ => 0 end
  end.

(** [str(x) if x is not None else ""] *)
Definition coerce_str (v : value) : string :=
  match v with
  | VNone => EmptyString
  | _ => str v
  end.

(** [get_disp_state].  [graph.get_state] always answers in this model and
    the conversions are guarded one by one, so the outer handler, which
    answers [("error", "error", thread_id, 0, 0)], is never entered. *)
Definition get_disp_state (dep : deployment) (w : gui) : disp :=
  let current_state := Engine.get_state (graph_of w) (thread w) in
  let lnode := get (values current_state) "lnode" (VStr EmptyString) in
  let acount := get (values current_state) "count" (VInt 0) in
  let rev := get (values current_state) "revision_number" (VInt 0) in
  let nnode := next current_state in
  {| d_lnode := coerce_str lnode;
     d_nnode := repr_tuple (node_name dep <$> nnode);
     d_thread := thread_id w;
     d_rev := coerce_int rev;
     d_count := coerce_int acount |}.

(** One progress report of [run_agent]:
    [(partial_message, lnode, nnode, thread_id, rev, acount)]. *)
Record report := Report {
  r_log : list log_item;
  r_lnode : string;
  r_nnode : string;
  r_thread : Z;
  r_rev : Z;
  r_count : Z
}.

Definition error_report (w : gui) : report :=
  {| r_log := partial_message w; r_lnode := "error"; r_nnode := EmptyString;
     r_thread := thread_id w; r_rev := 0; r_count := 0 |}.

(** The state a new run starts from. *)
Definition initial_state (topic : value) : dict :=
  mk_dict [
    ("task", topic);
    ("max_revisions", VInt 2);
    ("revision_number", VInt 0);
    ("lnode", VStr EmptyString);
    ("plan", VStr "no plan");
    ("draft", VStr "no draft");
    ("critique", VStr "no critique");
    ("count", VInt 0);
    ("retrieved_docs", VDocs [])].

(** [if start:] ... of [run_agent]: a new thread id, a new counter. *)
Definition start_thread (w : gui) : gui :=
  {| graph_of := graph_of w; partial_message := [];
     response := response w;
     iterations := iterations w ++ [0];
     threads := threads w ++ [thread_id w + 1];
     thread_id := thread_id w + 1;
     thread := thread w |}.

Definition set_thread (w : gui) : gui :=
  {| graph_of := graph_of w; partial_message := partial_message w;
     response := response w; iterations := iterations w; threads := threads w;
     thread_id := thread_id w; thread := thread_config (thread_id w) |}.

Definition set_response (r : option dict) (its : list Z) (w : gui) : gui :=
  {| graph_of := graph_of w; partial_message := partial_message w;
     response := r; iterations := its; threads := threads w;
     thread_id := thread_id w; thread := thread w |}.

(** The [while] loop of [run_agent].  A failure of the indexing
    [self.iterations[self.thread_id]] lands in the outer handler; a failure
    of [graph.invoke] in the inner one.  Both yield an error report and
    return.  [get_disp_state] cannot fail here, so its handler is left out.
    The loop is written on [fuel]; [None] means the fuel ran out with the
    loop condition still true, which [run_agent_total] excludes. *)
Fixpoint run_agent_loop (dep : deployment) (E : env) (fuel : nat)
    (stop_after : list string) (config : option dict) (w : gui)
    : option (list report * gui) :=
  match index (iterations w) (thread_id w) with
  | Raise e =>
      let w' := log [LCritical e] w in
      Some ([error_report w'], w')
  | Ok it =>
      if it <? max_iterations then
        match fuel with
        | O => None
        | S fuel' =>
            match invoke dep E config (thread_id_of (thread w)) (graph_of w) with
            | (Raise e, g') =>
                let w' := log [LError e] (set_graph g' w) in
                Some ([error_report w'], w')
            | (Ok resp, g') =>
                match set_index (iterations w) (thread_id w) (it + 1) with
                | Raise e =>
                    let w' := log [LCritical e] (set_graph g' w) in
                    Some ([error_report w'], w')
                | Ok its =>
                    let w' := log [LResponse resp; LSeparator]
                                (set_response resp its (set_graph g' w)) in
                    let d := get_disp_state dep w' in
                    let r := {| r_log := partial_message w'; r_lnode := d_lnode d;
                                r_nnode := d_nnode d; r_thread := thread_id w';
                                r_rev := d_rev d; r_count := d_count d |} in
                    if negb (truthy (VStr (d_nnode d))) then Some ([r], w')
                    else if bool_decide (d_lnode d ∈ stop_after) then Some ([r], w')
                    else
                      match run_agent_loop dep E fuel' stop_after None w' with
                      | Some (rs, w'') => Some (r :: rs, w'')
                      | None => None
                      end
                end
            end
        end
      else Some ([], w)
  end.

(** [run_agent(start, topic, stop_after)]: the reports it yields, in order,
    and the controller afterwards. *)
Definition run_agent (dep : deployment) (E : env) (start : bool) (topic : value)
    (stop_after : list string) (w : gui) : option (list report * gui) :=
  let w1 := if start then start_thread w else w in
  let config := if start then Some (initial_state topic) else None in
  let w2 := set_thread w1 in
  let fuel :=
    match index (iterations w2) (thread_id w2) with
    | Ok it => Z.to_nat (max_iterations - it)
    | Raise _ => O
    end in
  run_agent_loop dep E fuel stop_after config w2.

(** ** Reading a field *)

(** [d.get(k, k)] on a dict of strings. *)
Definition lookup_name (m : list (string * string)) (k : string) : string :=
  default k (snd <$> List.find (λ p, String.eqb p.1 k) m).

Definition read_key_map (dep : deployment) : list (string * string) :=
  match dep with
  | CaseStrategy => [("proposal", "draft"); ("materials", "retrieved_docs")]
  | CourseDesigner => [("design", "draft"); ("materials", "retrieved_docs")]
  end.

Definition write_key_map (dep : deployment) : list (string * string) :=
  match dep with
  | CaseStrategy =>
      [("proposal", "draft"); ("draft", "draft"); ("materials", "retrieved_docs")]
  | CourseDesigner =>
      [("design", "draft"); ("draft", "draft"); ("materials", "retrieved_docs")]
  end.

Definition node_map (dep : deployment) : list (string * string) :=
  match dep with
  | CaseStrategy => [("drafter", "drafter"); ("planner", "planner")]
  | CourseDesigner =>
      [("writer", "course designer"); ("course designer", "course designer")]
  end.

Definition nl : string := String (ascii_of_nat 10) EmptyString.

Definition no_documents_text (dep : deployment) : string :=
  match dep with
  | CaseStrategy => "No reference materials were retrieved for this proposal topic."
  | CourseDesigner => "No teaching materials were retrieved for this course topic."
  end.

Definition no_materials_text (dep : deployment) : string :=
  match dep with
  | CaseStrategy =>
      "No reference materials have been retrieved yet. Generate a proposal first by going to the Agent tab."
  | CourseDesigner =>
      "No teaching materials have been retrieved yet. Generate a course first by going to the Agent tab."
  end.

Fixpoint format_docs_from (i : Z) (ds : list doc) : string :=
  match ds with
  | [] => EmptyString
  | d :: ds' =>
      "Document " +:+ pretty (i + 1) +:+ " - Source: " +:+ source d +:+ nl
        +:+ content d +:+ nl +:+ nl +:+ format_docs_from (i + 1) ds'
  end.

Definition format_docs (dep : deployment) (v : value) : string :=
  match v with
  | VDocs [] => no_documents_text dep
  | VDocs ds => format_docs_from 0 ds
  | _ => "Retrieved documents are not in the expected format."
  end.

(** [gr.update(label=..., value=...)] *)
Record update := Update {
  label : string;
  value_of : value
}.

(** [get_state(key)] *)
Definition get_state (dep : deployment) (key : string) (w : gui) : update :=
  let current_values := Engine.get_state (graph_of w) (thread w) in
  let search_key := lookup_name (read_key_map dep) key in
  match values current_values !! search_key with
  | Some v =>
      let d := get_disp_state dep w in
      let new_label :=
        "Last Node: " +:+ d_lnode d +:+ ", Thread: " +:+ pretty (thread_id w)
          +:+ ", Rev: " +:+ pretty (d_rev d) +:+ ", Step: " +:+ pretty (d_count d) in
      let v1 := match v with VNone => VStr EmptyString | _ => v end in
      let v2 := if String.eqb search_key "retrieved_docs"
                then VStr (format_docs dep v1) else v1 in
      {| label := new_label; value_of := v2 |}
  | None =>
      if String.eqb key "materials" then
        {| label := "No Materials Retrieved"; value_of := VStr (no_materials_text dep) |}
      else
        {| label := "Key '" +:+ key +:+ "' not found in current state";
           value_of := VStr EmptyString |}
  end.

(** ** History *)

(** The entries of the history drop-down, newest first: checkpoints of
    step 1 and later, as [tid:count:lnode:nnode:rev:thread_ts]. *)
Definition hist_entry (dep : deployment) (s : snapshot) : string :=
  thread_id_of (config_of s) +:+ ":"
    +:+ str (get (values s) "count" (VInt 0)) +:+ ":"
    +:+ str (get (values s) "lnode" (VStr EmptyString)) +:+ ":"
    +:+ repr_tuple (node_name dep <$> next s) +:+ ":"
    +:+ str (get (values s) "revision_number" (VInt 0)) +:+ ":"
    +:+ default EmptyString (thread_ts_of (config_of s)).

Definition update_hist_pd (dep : deployment) (w : gui) : list string :=
  hist_entry dep <$>
    List.filter (λ s, negb (step_of s <? 1)) (get_state_history (graph_of w) (thread w)).

(** [find_config(thread_ts)] *)
Definition find_config (thread_ts : string) (w : gui) : option config :=
  config_of <$>
    List.find (λ s, bool_decide (thread_ts_of (config_of s) = Some thread_ts))
      (get_state_history (graph_of w) (thread w)).

(** What [copy_state] returns: [("", "", "", 0, 0)] or
    [(lnode, nnode, new_thread_ts, rev, count)]. *)
Inductive copied :=
  | Blank
  | Copied (lnode : value) (nnode : list node) (new_thread_ts : string)
      (rev count : value).

(** [copy_state(hist_str)].  [update_state] is not guarded: when it raises,
    so does [copy_state]. *)
Definition copy_state (dep : deployment) (hist_str : string) (w : gui)
    : result copied * gui :=
  if negb (truthy (VStr hist_str)) then (Ok Blank, w)
  else
    let thread_ts := last_segment hist_str in
    match find_config thread_ts w with
    | None => (Ok Blank, w)
    | Some config =>
        let state := Engine.get_state (graph_of w) config in
        match update_state dep (thread_id_of (thread w)) (values state)
                (get (values state) "lnode" (VStr EmptyString)) (graph_of w) with
        | (Raise e, g') => (Raise e, set_graph g' w)
        | (Ok _, g') =>
            let w' := set_graph g' w in
            let new_state := Engine.get_state (graph_of w') (thread w') in
            (Ok (Copied (get (values new_state) "lnode" (VStr EmptyString))
                   (next new_state)
                   (default EmptyString (thread_ts_of (config_of new_state)))
                   (get (values new_state) "revision_number" (VInt 0))
                   (get (values new_state) "count" (VInt 0))),
             w')
        end
    end.

(** [switch_thread(new_thread_id)] *)
Definition switch_thread (new_thread_id : Z) (w : gui) : gui :=
  {| graph_of := graph_of w; partial_message := partial_message w;
     response := response w; iterations := iterations w; threads := threads w;
     thread_id := new_thread_id; thread := thread_config new_thread_id |}.

(** ** Writing a field *)

Definition required_keys : list string :=
  ["task"; "plan"; "draft"; "critique"; "revision_number"; "max_revisions";
   "count"; "lnode"; "retrieved_docs"].

(** The loop over [required_keys] of [modify_state]. *)
Fixpoint backfill (keys : list string) (current updated : dict) : dict :=
  match keys with
  | [] => updated
  | req_key :: keys' =>
      let updated' :=
        match updated !! req_key with
        | Some _ => updated
        | None =>
            match current !! req_key with
            | Some v => <[req_key := v]> updated
            | None =>
                if String.eqb req_key "retrieved_docs"
                then <[req_key := VDocs []]> updated
                else <[req_key := VStr EmptyString]> updated
            end
        end in
      backfill keys' current updated'
  end.

(** [modify_state(key, asnode, new_state)].  A failure of [update_state] is
    caught and printed; nothing is returned either way. *)
Definition modify_state (dep : deployment) (key asnode : string) (new_state : value)
    (w : gui) : gui :=
  let current_values := Engine.get_state (graph_of w) (thread w) in
  let update_key := lookup_name (write_key_map dep) key in
  let update_node := lookup_name (node_map dep) asnode in
  let updated_values :=
    backfill required_keys (values current_values)
      (<[update_key := new_state]> (values current_values)) in
  match update_state dep (thread_id_of (thread w)) updated_values (VStr update_node)
          (graph_of w) with
  | (_, g') => set_graph g' w
  end.

End Gui.

(* ===================================================================== *)
(** * Views of the state used in the statements                           *)
(* ===================================================================== *)

Module Views.
Import Py Agent Engine Gui.

(** The count a stage reports: the planner reports 1, the other two the
    count they read plus 1. *)
Definition reported_count (n : node) (c : Z) : Z :=
  match n with
  | Planner => 1
  | _ => c + 1
  end.

Definition revision_after (n : node) (r : Z) : Z :=
  match n with
  | Drafter => r + 1
  | _ => r
  end.

(** The routing decision on integers. *)
Definition route (n : node) (r m : Z) : list node :=
  match n with
  | Planner => [Drafter]
  | Finalizer => [Drafter]
  | Drafter => if m <? r then [] else [Finalizer]
  end.

Definition at_state (g : graph) (t : string) (r m c : Z) (ln : value)
    (nx : list node) : Prop :=
  ∃ ck, latest g t = Some ck ∧ ck_next ck = nx
    ∧ ck_values ck !! "revision_number" = Some (VInt r)
    ∧ ck_values ck !! "max_revisions" = Some (VInt m)
    ∧ ck_values ck !! "count" = Some (VInt c)
    ∧ ck_values ck !! "lnode" = Some ln.

(** The controller is on the thread it created last: its counter is the
    last entry of [iterations]. *)
Definition on_last_thread (w : gui) (its : list Z) (k : Z) : Prop :=
  iterations w = its ++ [k]
  ∧ thread_id w = Z.of_nat (length its)
  ∧ thread w = thread_config (thread_id w).

(** A run started now opens a fresh thread: the id the controller is about
    to hand out is the next free one, and the checkpointer holds nothing
    under it. *)
Definition fresh_start (w : gui) : Prop :=
  thread_id w + 1 = Z.of_nat (length (iterations w))
  ∧ log_of (graph_of w) (pretty (thread_id w + 1)) = [].






End Views.

(* ===================================================================== *)
(** * Sample sessions                                                     *)
(* ===================================================================== *)

Module Samples.
Import Py Agent Engine Gui.

(** A model that always answers, one that always fails, and an empty
    retriever. *)
Definition sample_env : env :=
  {| model_invoke := λ _, Some "text"; retrieve_relevant_documents := λ _, [] |}.

Definition failing_env : env :=
  {| model_invoke := λ _, None; retrieve_relevant_documents := λ _, [] |}.

(** Every node ticked in the stop-after box, the default of the interface. *)
Definition all_nodes (dep : deployment) : list string := node_name dep <$> nodes.

Definition world_after (o : option (list report * gui)) : gui :=
  match o with
  | Some (_, w) => w
  | None => init empty_graph
  end.

Definition shown (o : option (list report * gui)) : list (string * string * Z * Z) :=
  match o with
  | Some (rs, _) => (λ r, (r_lnode r, r_nnode r, r_rev r, r_count r)) <$> rs
  | None => []
  end.

(** A course-designer session: one run started, stopped after the planner,
    then continued once (the drafter runs). *)
Definition planned : gui :=
  world_after (run_agent CourseDesigner sample_env true (VStr "AI")
                 (all_nodes CourseDesigner) (init empty_graph)).

Definition drafted : gui :=
  world_after (run_agent CourseDesigner sample_env false (VStr "AI")
                 (all_nodes CourseDesigner) planned).

Definition critiqued : gui :=
  world_after (run_agent CourseDesigner sample_env false (VStr "AI")
                 (all_nodes CourseDesigner) drafted).



(** The entry of the planner's checkpoint in the history drop-down of
    [drafted]. *)
Definition planner_entry : string := "0:1:planner:('course designer',):0:1".

Definition restored : gui := (copy_state CourseDesigner planner_entry drafted).2.

Definition unknown_entry : string := "0:1:planner:('course designer',):0:999".

Definition overwritten : gui :=
  modify_state CourseDesigner "plan" "planner" (VStr "X") planned.

End Samples.

(* ===================================================================== *)
(** * Sessions: the controller driven through a sequence of actions       *)
(* ===================================================================== *)

Module Sessions.
Import Py Agent Engine Gui.

(** The keys a stage computes; every other key of the dict it returns is
    read from the state it was given. *)
Definition writes_of (n : node) : list string :=
  match n with
  | Planner => ["plan"; "lnode"; "count"; "retrieved_docs"]
  | Drafter => ["draft"; "revision_number"; "lnode"; "count"]
  | Finalizer => ["critique"; "lnode"; "count"]
  end.

Definition not_an_int (v : value) : Prop := ∀ z, v ≠ VInt z.

(** [k] resumptions of a thread, one after the other. *)
Fixpoint resume (dep : deployment) (E : env) (t : string) (k : nat) (g : graph) : graph :=
  match k with
  | O => g
  | S k' => resume dep E t k' (invoke dep E None t g).2
  end.

(** The stages of [d] rounds of draft and critique, then the last draft. *)
Fixpoint revisions (d : nat) : list node :=
  match d with
  | O => [Drafter]
  | S d' => Drafter :: Finalizer :: revisions d'
  end.

(** What the buttons of the interface do: run ([start] for a new thread),
    restore a history entry, switch thread, overwrite a field. *)
Inductive action :=
  | Run (start : bool) (topic : value) (stop_after : list string)
  | Copy (hist_str : string)
  | Switch (new_thread_id : Z)
  | Modify (key asnode : string) (new_state : value).

Definition act (dep : deployment) (E : env) (a : action) (w : gui) : gui :=
  match a with
  | Run start topic stop_after =>
      match run_agent dep E start topic stop_after w with
      | Some (_, w') => w'
      | None => w
      end
  | Copy hist_str => (copy_state dep hist_str w).2
  | Switch new_thread_id => switch_thread new_thread_id w
  | Modify key asnode new_state => modify_state dep key asnode new_state w
  end.

Definition session (dep : deployment) (E : env) (acts : list action) (w : gui) : gui :=
  foldl (λ w a, act dep E a w) w acts.

(** The thread an action works on: [run_agent] takes it from [thread_id],
    [copy_state] and [modify_state] from [self.thread]. *)
Definition target (a : action) (w : gui) : string :=
  match a with
  | Run start _ _ => pretty (if start then thread_id w + 1 else thread_id w)
  | _ => thread_id_of (thread w)
  end.

(** [g'] differs from [g] by checkpoints appended to the log of [t]. *)
Definition touches_only (t : string) (g g' : graph) : Prop :=
  log_of g t `prefix_of` log_of g' t
  ∧ ∀ t', t' ≠ t → log_of g' t' = log_of g t'.

Definition count_is_int (g : graph) : Prop :=
  ∀ t ck, ck ∈ log_of g t → ∃ z, ck_values ck !! "count" = Some (VInt z).

Definition int_or_missing (o : option value) : Prop :=
  o = None ∨ ∃ z, o = Some (VInt z).

(** The inputs [run_agent] hands to [invoke]. *)
Definition run_input (input : option dict) : Prop :=
  input = None ∨ ∃ topic, input = Some (initial_state topic).



End Sessions.

(* ===================================================================== *)
(** * The parameter form: area lists and file names                       *)
(* ===================================================================== *)

(** [save_new_parameters] and [load_parameters] of the two interface
    files.  A text is a string of bytes here; the character tests below are
    Python's on ASCII text, which is what the statements about them range
    over ([is_ascii]). *)
Module Params.
Import Py.

Definition is_ascii_char (c : ascii) : bool := (nat_of_ascii c <? 128)%nat.

Fixpoint string_forall (p : ascii → bool) (s : string) : bool :=
  match s with
  | EmptyString => true
  | String c s' => p c && string_forall p s'
  end.

Definition is_ascii (s : string) : bool := string_forall is_ascii_char s.

Fixpoint string_map (f : ascii → ascii) (s : string) : string :=
  match s with
  | EmptyString => EmptyString
  | String c s' => String (f c) (string_map f s')
  end.

(** [c.isalnum()] *)
Definition is_alnum (c : ascii) : bool :=
  let n := nat_of_ascii c in
  ((48 <=? n) && (n <=? 57) || (65 <=? n) && (n <=? 90) || (97 <=? n) && (n <=? 122))%nat.

(** [c if c.isalnum() or c in [' ', '-', '_'] else '_'] *)
Definition keep_or_underscore (c : ascii) : ascii :=
  if is_alnum c || Ascii.eqb c " " || Ascii.eqb c "-" || Ascii.eqb c "_"
  then c else "_"%char.

(** One character of [s.replace(' ', '_')]. *)
Definition replace_space (c : ascii) : ascii :=
  if Ascii.eqb c " " then "_"%char else c.

(** One character of [s.lower()]. *)
Definition lower_char (c : ascii) : ascii :=
  let n := nat_of_ascii c in
  if ((65 <=? n) && (n <=? 90))%nat then ascii_of_nat (n + 32) else c.

Definition safe_title (title : string) : string :=
  string_map lower_char (string_map replace_space (string_map keep_or_underscore title)).

(** [f"{safe_title}_parameters.json"] *)
Definition parameters_filename (title : string) : string :=
  safe_title title +:+ "_parameters.json".

(** [s.split(sep)] for a separator of one character: one piece more than
    there are separators. *)
Fixpoint split_on (sep : ascii) (s : string) : list string :=
  match s with
  | EmptyString => [EmptyString]
  | String c s' =>
      if Ascii.eqb c sep then EmptyString :: split_on sep s'
      else
        match split_on sep s' with
        | piece :: pieces => String c piece :: pieces
        | [] => [String c EmptyString]
        end
  end.

(** [[area.strip() for area in areas.split(",") if area.strip()]] *)
Definition areas_list (areas : string) : list string :=
  strip <$> List.filter (λ area, truthy (VStr (strip area))) (split_on "," areas).

(** [", ".join(params.get('compulsory_areas', []))] of [load_parameters]. *)
Definition areas_text (areas : list string) : string := join ", " areas.

(** An area as [save_new_parameters] stores it: ASCII here, not empty,
    without a comma, without white space at either end. *)
Definition clean (area : string) : Prop :=
  is_ascii area = true ∧ area ≠ EmptyString
  ∧ contains_char "," area = false ∧ strip area = area.

(** The characters of a file name made by [safe_title]. *)
Definition is_safe_char (c : ascii) : bool :=
  let n := nat_of_ascii c in
  ((48 <=? n) && (n <=? 57) || (97 <=? n) && (n <=? 122)
   || (n =? 45) || (n =? 95))%nat.

End Params.

(* ===================================================================== *)
(** * Facts about the channels                                            *)
(* ===================================================================== *)

Module ChannelFacts.
Import Py Agent Engine.

Lemma NoDup_channels : NoDup channels.
Proof. by apply (bool_decide_unpack _). Qed.

Lemma update_channel_count old w :
  update_channel "count" old w = add (default (VInt 0) old) w.
Proof. done. Qed.

Lemma update_channel_other k old w : k ≠ "count" → update_channel k old w = Ok w.
Proof. intros H. unfold update_channel. by rewrite decide_False. Qed.

(** What a successful write leaves under each key. *)
Lemma apply_writes_on_lookup keys : ∀ (values writes v' : dict),
  NoDup keys →
  apply_writes_on keys values writes = Ok v' →
  ∀ k, v' !! k =
    if decide (k ∈ keys) then
      match writes !! k with
      | Some w =>
          match update_channel k (values !! k) w with
          | Ok v => Some v
          | Raise _ => None
          end
      | None => values !! k
      end
    else values !! k.
Proof.
  induction keys as [|a keys IH]; intros values writes v' Hnd Hok k; simpl in *.
  - by injection Hok as <-.
  - apply NoDup_cons in Hnd as [Hna Hnd].
    destruct (writes !! a) as [w|] eqn:Hw.
    + destruct (update_channel a (values !! a) w) as [v|e] eqn:Hu; simpl in Hok; [|done].
      rewrite (IH _ _ _ Hnd Hok k).
      destruct (decide (k = a)) as [->|Hne].
      * rewrite decide_False by done. rewrite decide_True by set_solver.
        by rewrite lookup_insert_eq, Hw, Hu.
      * rewrite lookup_insert_ne by done.
        destruct (decide (k ∈ keys)).
        -- by rewrite decide_True by set_solver.
        -- by rewrite decide_False by (by apply not_elem_of_cons).
    + rewrite (IH _ _ _ Hnd Hok k).
      destruct (decide (k = a)) as [->|Hne].
      * rewrite decide_False by done. rewrite decide_True by set_solver. by rewrite Hw.
      * destruct (decide (k ∈ keys)).
        -- by rewrite decide_True by set_solver.
        -- by rewrite decide_False by (by apply not_elem_of_cons).
Qed.

(** A write succeeds when each single channel update does. *)
Lemma apply_writes_on_ok keys : ∀ (values writes : dict),
  NoDup keys →
  (∀ k w, k ∈ keys → writes !! k = Some w →
     is_ok (update_channel k (values !! k) w) = true) →
  ∃ v', apply_writes_on keys values writes = Ok v'.
Proof.
  induction keys as [|a keys IH]; intros values writes Hnd Hall; simpl.
  - eauto.
  - apply NoDup_cons in Hnd as [Hna Hnd].
    destruct (writes !! a) as [w|] eqn:Hw.
    + pose proof (Hall a w ltac:(set_solver) Hw) as Ha.
      destruct (update_channel a (values !! a) w) as [v|e]; [|done]. simpl.
      apply IH; [done|]. intros k w' Hk Hw'.
      rewrite lookup_insert_ne by set_solver. apply Hall; [set_solver|done].
    + apply IH; [done|]. intros k w' Hk Hw'. apply Hall; [set_solver|done].
Qed.

(** Only the [count] channel can refuse a write. *)
Lemma apply_writes_ok (values writes : dict) :
  (∀ w, writes !! "count" = Some w →
     is_ok (add (get values "count" (VInt 0)) w) = true) →
  ∃ v', apply_writes values writes = Ok v'.
Proof.
  intros H. apply apply_writes_on_ok; [apply NoDup_channels|].
  intros k w _ Hw. destruct (decide (k = "count")) as [->|Hne].
  - rewrite update_channel_count. by apply H.
  - by rewrite update_channel_other.
Qed.

Lemma apply_writes_set (values writes v' : dict) k w :
  apply_writes values writes = Ok v' → k ∈ channels → k ≠ "count" →
  writes !! k = Some w → v' !! k = Some w.
Proof.
  intros Hok Hk Hne Hw.
  rewrite (apply_writes_on_lookup _ _ _ _ NoDup_channels Hok k).
  rewrite decide_True by done. by rewrite Hw, update_channel_other.
Qed.

Lemma apply_writes_count (values writes v' : dict) w v :
  apply_writes values writes = Ok v' → writes !! "count" = Some w →
  add (get values "count" (VInt 0)) w = Ok v → v' !! "count" = Some v.
Proof.
  intros Hok Hw Ha.
  rewrite (apply_writes_on_lookup _ _ _ _ NoDup_channels Hok "count").
  rewrite decide_True by (by apply (bool_decide_unpack _)).
  rewrite Hw, update_channel_count. unfold get in Ha. by rewrite Ha.
Qed.

Lemma apply_writes_keep (values writes v' : dict) k :
  apply_writes values writes = Ok v' → writes !! k = None → v' !! k = values !! k.
Proof.
  intros Hok Hw.
  rewrite (apply_writes_on_lookup _ _ _ _ NoDup_channels Hok k).
  rewrite Hw. by destruct (decide (k ∈ channels)).
Qed.

Lemma apply_writes_other (values writes v' : dict) k :
  apply_writes values writes = Ok v' → k ∉ channels → v' !! k = values !! k.
Proof.
  intros Hok Hk.
  rewrite (apply_writes_on_lookup _ _ _ _ NoDup_channels Hok k).
  by rewrite decide_False.
Qed.

End ChannelFacts.

(* ===================================================================== *)
(** * Facts about the stages                                              *)
(* ===================================================================== *)

Module StageFacts.
Import Py Agent Engine Views ChannelFacts.

Ltac in_channels := by apply (bool_decide_unpack _).

(** A stage run on a state whose two counters are integers (or missing). *)
Lemma exec_node_ok dep E n call (st : dict) r c :
  get st "revision_number" (VInt 0) = VInt r →
  get st "count" (VInt 0) = VInt c →
  (n = Planner → is_Some (model_invoke E call)) →
  ∃ st', exec_node dep E n call st = Ok st'
    ∧ st' !! "revision_number" = Some (VInt (revision_after n r))
    ∧ st' !! "count" = Some (VInt (c + reported_count n c))
    ∧ st' !! "lnode" = Some (VStr (node_name dep n))
    ∧ st' !! "max_revisions" = Some (get st "max_revisions" (VInt 2))
    ∧ (∀ k, k ∈ channels → is_Some (st' !! k)).
Proof.
  intros Hr Hc Hresp. unfold exec_node.
  assert (∃ d, run_node dep E n call st = Ok d
    ∧ d !! "revision_number" = Some (VInt (revision_after n r))
    ∧ d !! "count" = Some (VInt (reported_count n c))
    ∧ d !! "lnode" = Some (VStr (node_name dep n))
    ∧ d !! "max_revisions" = Some (get st "max_revisions" (VInt 2))
    ∧ (∀ k, k ∈ channels → is_Some (d !! k))) as (d & Hd & Hdr & Hdc & Hdl & Hdm & Hall).
  { destruct n; simpl.
    - destruct (Hresp eq_refl) as [content ->]. unfold plan_node.
      eexists; split; [done|]. rewrite Hr.
      repeat split; try reflexivity.
      intros k Hk. unfold channels in Hk.
      repeat (apply elem_of_cons in Hk as [->|Hk]; [by eexists|]). set_solver.
    - unfold writer_node. rewrite Hr, Hc.
      destruct (model_invoke E call) as [content|]; simpl;
        (eexists; split; [done|]; repeat split; try reflexivity;
         intros k Hk; unfold channels in Hk;
         repeat (apply elem_of_cons in Hk as [->|Hk]; [by eexists|]); set_solver).
    - unfold reflection_node. rewrite Hc.
      destruct (model_invoke E call) as [content|]; simpl;
        (eexists; split; [done|]; rewrite ?Hr; repeat split; try reflexivity;
         intros k Hk; unfold channels in Hk;
         repeat (apply elem_of_cons in Hk as [->|Hk]; [by eexists|]); set_solver). }
  rewrite Hd. simpl.
  destruct (apply_writes_ok st d) as [st' Hst'].
  { intros w Hw. rewrite Hdc in Hw. injection Hw as <-. by rewrite Hc. }
  exists st'. split; [done|].
  split; [by apply (apply_writes_set _ _ _ _ _ Hst'); [in_channels|done|]|].
  split; [apply (apply_writes_count _ _ _ _ _ Hst' Hdc); by rewrite Hc|].
  split; [by apply (apply_writes_set _ _ _ _ _ Hst'); [in_channels|done|]|].
  split; [by apply (apply_writes_set _ _ _ _ _ Hst'); [in_channels|done|]|].
  intros k Hk. destruct (Hall k Hk) as [w Hw].
  destruct (decide (k = "count")) as [->|Hne].
  - eexists. apply (apply_writes_count _ _ _ _ _ Hst' Hdc). by rewrite Hc.
  - exists w. by apply (apply_writes_set _ _ _ _ _ Hst').
Qed.

End StageFacts.

(* ===================================================================== *)
(** * Facts about the engine                                              *)
(* ===================================================================== *)

Module EngineFacts.
Import Py Agent Engine Views ChannelFacts StageFacts.

Lemma log_of_append t src v nx g :
  log_of (append_checkpoint t src v nx g) t
  = log_of g t ++ [{| ck_ts := pretty (clock g);
                      ck_step := match last (log_of g t) with
                                 | Some c => ck_step c + 1
                                 | None => 0
                                 end;
                      ck_source := src; ck_values := v; ck_next := nx |}].
Proof. unfold log_of at 1, append_checkpoint. simpl. by rewrite lookup_insert_eq. Qed.

Lemma log_of_append_ne t t' src v nx g :
  t ≠ t' → log_of (append_checkpoint t src v nx g) t' = log_of g t'.
Proof.
  intros Hne. unfold log_of at 1, append_checkpoint. simpl.
  by rewrite lookup_insert_ne.
Qed.

Lemma log_of_count_call g t : log_of (count_call g) t = log_of g t.
Proof. done. Qed.

Lemma latest_count_call g t : latest (count_call g) t = latest g t.
Proof. done. Qed.

Lemma latest_append t src v nx g :
  ∃ c, latest (append_checkpoint t src v nx g) t = Some c
    ∧ ck_values c = v ∧ ck_next c = nx ∧ ck_source c = src
    ∧ ck_ts c = pretty (clock g).
Proof.
  unfold latest. rewrite log_of_append, last_snoc. by eexists.
Qed.

Lemma executed_append t src v nx g :
  executed (append_checkpoint t src v nx g) t
  = executed g t ++ match src with SLoop n => [n] | _ => [] end.
Proof.
  unfold executed. rewrite log_of_append, omap_app. simpl.
  by destruct src.
Qed.

Lemma calls_append t src v nx g : calls (append_checkpoint t src v nx g) = calls g.
Proof. done. Qed.

Lemma interrupt_after_all n : bool_decide (n ∈ interrupt_after) = true.
Proof. by destruct n. Qed.

Lemma run_loop_unfold dep E fuel t g out :
  run_loop dep E (S fuel) t g out =
  match latest g t with
  | None => (Ok out, g)
  | Some c =>
      match ck_next c with
      | [] => (Ok out, g)
      | n :: _ =>
          match exec_node dep E n (calls g) (ck_values c) with
          | Raise e => (Raise e, count_call g)
          | Ok values' =>
              let g2 := append_checkpoint t (SLoop n) values' (next_after n values')
                          (count_call g) in
              if bool_decide (n ∈ interrupt_after) then (Ok (Some values'), g2)
              else run_loop dep E fuel t g2 (Some values')
          end
      end
  end.
Proof. done. Qed.

Lemma invoke_none dep E t g :
  invoke dep E None t g = run_loop dep E (S 24) t g None.
Proof. done. Qed.

(** Resuming a thread runs exactly one node: every node is in
    [interrupt_after]. *)
Lemma invoke_resume dep E t g c n rest v' :
  latest g t = Some c → ck_next c = n :: rest →
  exec_node dep E n (calls g) (ck_values c) = Ok v' →
  invoke dep E None t g
  = (Ok (Some v'),
     append_checkpoint t (SLoop n) v' (next_after n v') (count_call g)).
Proof.
  intros Hl Hn Hx. rewrite invoke_none, run_loop_unfold.
  by rewrite Hl, Hn, Hx, interrupt_after_all.
Qed.

(** A node that raises leaves no checkpoint. *)
Lemma invoke_resume_raise dep E t g c n rest e :
  latest g t = Some c → ck_next c = n :: rest →
  exec_node dep E n (calls g) (ck_values c) = Raise e →
  invoke dep E None t g = (Raise e, count_call g).
Proof.
  intros Hl Hn Hx. rewrite invoke_none, run_loop_unfold.
  by rewrite Hl, Hn, Hx.
Qed.


(** Starting a run saves the input, then behaves as a resumption. *)
Lemma invoke_start dep E t g config v :
  apply_writes (latest_values g t) config = Ok v →
  invoke dep E (Some config) t g
  = invoke dep E None t (append_checkpoint t SInput v [entry_point] g).
Proof. intros H. unfold invoke. by rewrite H. Qed.

(** ** The state of a thread, as far as routing needs it *)

Lemma next_after_route n (st : dict) r m :
  st !! "revision_number" = Some (VInt r) →
  st !! "max_revisions" = Some (VInt m) →
  next_after n st = route n r m.
Proof.
  intros Hr Hm. destruct n; [done| |done]. simpl.
  unfold should_continue, get. rewrite Hr, Hm. simpl. by destruct (m <? r).
Qed.

(** One resumption, on the routing view of the thread. *)
Lemma invoke_step dep E t g r m c ln n rest :
  at_state g t r m c ln (n :: rest) →
  (n = Planner → is_Some (model_invoke E (calls g))) →
  ∃ v' g', invoke dep E None t g = (Ok (Some v'), g')
    ∧ at_state g' t (revision_after n r) m (c + reported_count n c)
        (VStr (node_name dep n)) (route n (revision_after n r) m)
    ∧ executed g' t = executed g t ++ [n]
    ∧ calls g' = S (calls g)
    ∧ (∀ t', t ≠ t' → log_of g' t' = log_of g t')
    ∧ (∃ ck, log_of g' t = log_of g t ++ [ck]).
Proof.
  intros (ck & Hl & Hn & Hr & Hm & Hc & Hln) Hresp.
  destruct (exec_node_ok dep E n (calls g) (ck_values ck) r c)
    as (v' & Hx & Hr' & Hc' & Hl' & Hm' & _).
  { unfold get. by rewrite Hr. }
  { unfold get. by rewrite Hc. }
  { done. }
  unfold get in Hm'. rewrite Hm in Hm'. simpl in Hm'.
  eexists v', _. split; [by eapply invoke_resume|].
  split.
  { destruct (latest_append t (SLoop n) v' (next_after n v') (count_call g))
      as (ck' & Hlat & Hv & Hnx & _).
    exists ck'. rewrite Hv, Hnx. repeat split; try done.
    by apply next_after_route. }
  split; [by rewrite executed_append|].
  split; [done|].
  split; [intros t' Hne; by rewrite log_of_append_ne|].
  eexists. by rewrite log_of_append.
Qed.

(** The first checkpoint of a fresh thread. *)
Lemma start_state t g (topic : value) :
  log_of g t = [] →
  ∃ v, apply_writes (latest_values g t) (Gui.initial_state topic) = Ok v
    ∧ at_state (append_checkpoint t SInput v [entry_point] g) t 0 2 0
        (VStr EmptyString) [Planner].
Proof.
  intros Hlog. unfold latest_values, latest. rewrite Hlog. simpl.
  destruct (apply_writes_ok ∅ (Gui.initial_state topic)) as [v Hv].
  { intros w Hw. by injection Hw as <-. }
  exists v. split; [done|].
  destruct (latest_append t SInput v [entry_point] g) as (ck & Hlat & Hval & Hnx & _).
  exists ck. rewrite Hval, Hnx. repeat split; try done.
  - by apply (apply_writes_set _ _ _ _ _ Hv); [in_channels|done|].
  - by apply (apply_writes_set _ _ _ _ _ Hv); [in_channels|done|].
  - by apply (apply_writes_count _ _ _ _ _ Hv eq_refl).
  - by apply (apply_writes_set _ _ _ _ _ Hv); [in_channels|done|].
Qed.

End EngineFacts.

(* ===================================================================== *)
(** * Facts about the run loop of the controller                          *)
(* ===================================================================== *)

Module GuiFacts.
Import Py Agent Engine Gui Views ChannelFacts StageFacts EngineFacts.

Lemma norm_index_snoc {A} (l : list A) x i :
  i = Z.of_nat (length l) → norm_index (l ++ [x]) i = Some (length l).
Proof.
  intros ->. unfold norm_index. rewrite length_app. simpl.
  rewrite (proj2 (andb_true_iff _ _)); [by rewrite Nat2Z.id|].
  split; [apply Z.leb_le|apply Z.ltb_lt]; lia.
Qed.

Lemma index_snoc {A} (l : list A) x i :
  i = Z.of_nat (length l) → index (l ++ [x]) i = Ok x.
Proof.
  intros Hi. unfold index. rewrite (norm_index_snoc _ _ _ Hi).
  by rewrite lookup_app_r, Nat.sub_diag by lia.
Qed.



Lemma run_agent_loop_unfold dep E fuel stop_after config w :
  run_agent_loop dep E (S fuel) stop_after config w =
  match index (iterations w) (thread_id w) with
  | Raise e => let w' := log [LCritical e] w in Some ([error_report w'], w')
  | Ok it =>
      if it <? max_iterations then
        match invoke dep E config (thread_id_of (thread w)) (graph_of w) with
        | (Raise e, g') =>
            let w' := log [LError e] (set_graph g' w) in
            Some ([error_report w'], w')
        | (Ok resp, g') =>
            match set_index (iterations w) (thread_id w) (it + 1) with
            | Raise e =>
                let w' := log [LCritical e] (set_graph g' w) in
                Some ([error_report w'], w')
            | Ok its =>
                let w' := log [LResponse resp; LSeparator]
                            (set_response resp its (set_graph g' w)) in
                let d := get_disp_state dep w' in
                let r := {| r_log := partial_message w'; r_lnode := d_lnode d;
                            r_nnode := d_nnode d; r_thread := thread_id w';
                            r_rev := d_rev d; r_count := d_count d |} in
                if negb (truthy (VStr (d_nnode d))) then Some ([r], w')
                else if bool_decide (d_lnode d ∈ stop_after) then Some ([r], w')
                else
                  match run_agent_loop dep E fuel stop_after None w' with
                  | Some (rs, w'') => Some (r :: rs, w'')
                  | None => None
                  end
            end
        end
      else Some ([], w)
  end.
Proof. done. Qed.







(** ** The loop always returns *)

Lemma index_set_index {A} (l : list A) i x y :
  index l i = Ok x → ∃ l', set_index l i y = Ok l' ∧ index l' i = Ok y.
Proof.
  unfold index, set_index. intros H.
  destruct (norm_index l i) as [k|] eqn:Hk; [|done].
  destruct (l !! k) as [x'|] eqn:Hx; [|done].
  eexists. split; [done|].
  assert (norm_index (<[k:=y]> l) i = Some k) as ->.
  { unfold norm_index in *. by rewrite length_insert. }
  rewrite list_lookup_insert_eq; [done|]. by eapply lookup_lt_Some.
Qed.

(** The counter of the thread grows by one with each turn, so
    [max_iterations - it] turns are enough. *)
Lemma run_agent_loop_total dep E stop_after : ∀ fuel config w,
  (∀ it, index (iterations w) (thread_id w) = Ok it →
     (Z.to_nat (max_iterations - it) ≤ fuel)%nat) →
  is_Some (run_agent_loop dep E fuel stop_after config w).
Proof.
  induction fuel as [|fuel IH]; intros config w Hfuel.
  - simpl. destruct (index (iterations w) (thread_id w)) as [it|e] eqn:Hi; [|done].
    pose proof (Hfuel it eq_refl).
    assert ((it <? max_iterations) = false) as -> by (apply Z.ltb_ge; lia). done.
  - rewrite run_agent_loop_unfold.
    destruct (index (iterations w) (thread_id w)) as [it|e] eqn:Hi; [|done].
    destruct (it <? max_iterations) eqn:Hlt; [|done].
    destruct (invoke dep E config (thread_id_of (thread w)) (graph_of w))
      as [[resp|e] g']; [|done].
    destruct (index_set_index _ _ _ (it + 1) Hi) as (its & -> & Hi').
    cbv zeta.
    match goal with |- context [run_agent_loop dep E fuel stop_after None ?w'] =>
      destruct (IH None w') as [[rs w''] ->] end.
    { intros it'. cbn [iterations thread_id log set_response set_graph].
      rewrite Hi'. intros [= <-]. apply Z.ltb_lt in Hlt.
      pose proof (Hfuel it eq_refl). lia. }
    by repeat case_match.
Qed.

(** [run_agent] returns, whatever the controller and the model do. *)
Lemma run_agent_total dep E start topic stop_after w :
  is_Some (run_agent dep E start topic stop_after w).
Proof.
  unfold run_agent. apply run_agent_loop_total.
  intros it Hi. by rewrite Hi.
Qed.

End GuiFacts.

(* ===================================================================== *)
(** * The properties                                                      *)
(* ===================================================================== *)

Import Py Agent Engine Gui Views Samples ChannelFacts StageFacts EngineFacts GuiFacts.

(** ** The built-ins on examples *)

Example int_of_string_ex :
  Py.int_of_string " 1_000 " = Py.Ok 1000 ∧ Py.int_of_string "-12" = Py.Ok (-12)
  ∧ Py.int_of_string "abc" = Py.Raise Py.ValueError
  ∧ Py.int_of_string EmptyString = Py.Raise Py.ValueError
  ∧ Py.int_of_string "1__0" = Py.Raise Py.ValueError.
Proof. repeat split; reflexivity. Qed.

Example repr_ex :
  Py.repr_tuple ["drafter"] = "('drafter',)" ∧ Py.repr_tuple [] = "()"
  ∧ Py.str (Py.VInt (-3)) = "-3"
  ∧ Py.last_segment "0:1:planner:('drafter',):0:17" = "17".
Proof. repeat split; reflexivity. Qed.

Lemma fresh_start_on_last w :
  fresh_start w →
  on_last_thread (set_thread (start_thread w)) (iterations w) 0.
Proof. intros [Hid _]. by repeat split. Qed.






(** The draft stage whose model call raises: the handler's dict. *)
Lemma writer_node_failed dep (st : dict) r c :
  get st "revision_number" (VInt 0) = VInt r →
  get st "count" (VInt 0) = VInt c →
  ∃ d, writer_node dep None st = Ok d
    ∧ d !! "draft" = Some (VStr draft_error_text)
    ∧ d !! "revision_number" = Some (VInt (r + 1))
    ∧ d !! "count" = Some (VInt (c + 1))
    ∧ d !! "lnode" = Some (VStr (node_name dep Drafter))
    ∧ (∀ k, k ∈ channels → is_Some (d !! k)).
Proof.
  intros Hr Hc. unfold writer_node. simpl. rewrite Hr, Hc. simpl.
  eexists. split; [done|]. repeat split; try reflexivity.
  intros k Hk. unfold channels in Hk.
  repeat (apply elem_of_cons in Hk as [->|Hk]; [by eexists|]). set_solver.
Qed.

Lemma writer_node_succeeded dep (st : dict) r c content :
  get st "revision_number" (VInt 0) = VInt r →
  get st "count" (VInt 0) = VInt c →
  ∃ d, writer_node dep (Some content) st = Ok d
    ∧ d !! "draft" = Some (VStr content)
    ∧ d !! "revision_number" = Some (VInt (r + 1))
    ∧ d !! "count" = Some (VInt (c + 1))
    ∧ d !! "lnode" = Some (VStr (node_name dep Drafter)).
Proof.
  intros Hr Hc. unfold writer_node. simpl. rewrite Hr, Hc. simpl.
  eexists. split; [done|]. repeat split; reflexivity.
Qed.

(** C10. When the model call of the draft stage raises, the stage still
    returns a dict with every key: the draft is the fixed error text, and
    revision_number and count are what a successful call reports.  The
    engine therefore saves a checkpoint as for any drafter step, with the
    same revision number, count and next node as after a success, and
    [invoke] does not raise. *)
Theorem C10_failed_draft_counts dep E E' t g r m c ln rest content :
  at_state g t r m c ln (Drafter :: rest) →
  model_invoke E (calls g) = None →
  model_invoke E' (calls g) = Some content →
  ∃ d v g' v2 g2,
    writer_node dep None (latest_values g t) = Ok d
    ∧ (∀ k, k ∈ channels → is_Some (d !! k))
    ∧ d !! "draft" = Some (VStr draft_error_text)
    ∧ d !! "revision_number" = Some (VInt (r + 1))
    ∧ d !! "count" = Some (VInt (c + 1))
    ∧ invoke dep E None t g = (Ok (Some v), g')
    ∧ v !! "draft" = Some (VStr draft_error_text)
    ∧ at_state g' t (r + 1) m (c + (c + 1)) (VStr (node_name dep Drafter))
        (route Drafter (r + 1) m)
    ∧ invoke dep E' None t g = (Ok (Some v2), g2)
    ∧ v2 !! "draft" = Some (VStr content)
    ∧ at_state g2 t (r + 1) m (c + (c + 1)) (VStr (node_name dep Drafter))
        (route Drafter (r + 1) m).
Proof.
  intros Hat Hfail Hok.
  pose proof Hat as (ck & Hl & Hn & Hr & Hm & Hc & Hln).
  assert (get (ck_values ck) "revision_number" (VInt 0) = VInt r) as Hgr
    by (unfold get; by rewrite Hr).
  assert (get (ck_values ck) "count" (VInt 0) = VInt c) as Hgc
    by (unfold get; by rewrite Hc).
  destruct (writer_node_failed dep (ck_values ck) r c Hgr Hgc)
    as (d & Hd & Hdd & Hdr & Hdc & Hdl & Hall).
  destruct (writer_node_succeeded dep (ck_values ck) r c content Hgr Hgc)
    as (d2 & Hd2 & Hdd2 & _).
  destruct (invoke_step dep E t g r m c ln Drafter rest Hat ltac:(done))
    as (v & g' & Hinv & Hat' & _).
  destruct (invoke_step dep E' t g r m c ln Drafter rest Hat ltac:(done))
    as (v2 & g2 & Hinv2 & Hat2 & _).
  exists d, v, g', v2, g2.
  unfold latest_values. rewrite Hl.
  split; [exact Hd|]. split; [exact Hall|]. split; [exact Hdd|].
  split; [exact Hdr|]. split; [exact Hdc|]. split; [exact Hinv|].
  assert (∀ E0 resp v0 g0 d0 text,
            model_invoke E0 (calls g) = resp →
            writer_node dep resp (ck_values ck) = Ok d0 →
            d0 !! "draft" = Some (VStr text) →
            invoke dep E0 None t g = (Ok (Some v0), g0) →
            v0 !! "draft" = Some (VStr text)) as Hdraft.
  { intros E0 resp v0 g0 d0 text Hresp Hw Hd0 Hi.
    destruct (exec_node dep E0 Drafter (calls g) (ck_values ck)) as [x|e] eqn:Hx.
    - rewrite (invoke_resume dep E0 t g ck Drafter rest x Hl Hn Hx) in Hi.
      injection Hi as <- _.
      unfold exec_node in Hx. simpl in Hx. rewrite Hresp, Hw in Hx. simpl in Hx.
      by apply (apply_writes_set _ _ _ _ _ Hx); [in_channels|done|].
    - by rewrite (invoke_resume_raise dep E0 t g ck Drafter rest e Hl Hn Hx) in Hi. }
  split; [exact (Hdraft E None v g' d draft_error_text Hfail Hd Hdd Hinv)|].
  split; [exact Hat'|]. split; [exact Hinv2|].
  split; [exact (Hdraft E' (Some content) v2 g2 d2 content Hok Hd2 Hdd2 Hinv2)|].
  exact Hat2.
Qed.

Lemma C10_witness :
  at_state (graph_of planned) "0" 0 2 1 (VStr "planner") [Drafter]
  ∧ ∃ d v g' v2 g2,
      writer_node CourseDesigner None (latest_values (graph_of planned) "0") = Ok d
      ∧ (∀ k, k ∈ channels → is_Some (d !! k))
      ∧ d !! "draft" = Some (VStr draft_error_text)
      ∧ d !! "revision_number" = Some (VInt (0 + 1))
      ∧ d !! "count" = Some (VInt (1 + 1))
      ∧ invoke CourseDesigner failing_env None "0" (graph_of planned) = (Ok (Some v), g')
      ∧ v !! "draft" = Some (VStr draft_error_text)
      ∧ at_state g' "0" (0 + 1) 2 (1 + (1 + 1)) (VStr (node_name CourseDesigner Drafter))
          (route Drafter (0 + 1) 2)
      ∧ invoke CourseDesigner sample_env None "0" (graph_of planned) = (Ok (Some v2), g2)
      ∧ v2 !! "draft" = Some (VStr "text")
      ∧ at_state g2 "0" (0 + 1) 2 (1 + (1 + 1)) (VStr (node_name CourseDesigner Drafter))
          (route Drafter (0 + 1) 2).
Proof.
  assert (at_state (graph_of planned) "0" 0 2 1 (VStr "planner") [Drafter]) as H.
  { eexists. split; [vm_compute; reflexivity|]. repeat split; vm_compute; reflexivity. }
  split; [exact H|].
  exact (C10_failed_draft_counts CourseDesigner failing_env sample_env "0"
           (graph_of planned) 0 2 1 (VStr "planner") [] "text" H eq_refl eq_refl).
Defined.

(** C2, on the code.  The state's count does not grow by one per step: the
    planner reports count 1, the other two stages report the count they
    read plus one, and the engine adds what a stage reports to the stored
    count.  After planner, drafter and critique the count is 1, 3, 7. *)
Theorem C2_count_after_each_step :
  shown (run_agent CourseDesigner sample_env true (VStr "AI")
           (all_nodes CourseDesigner) (init empty_graph))
    = [("planner", "('course designer',)", 0, 1)]
  ∧ shown (run_agent CourseDesigner sample_env false (VStr "AI")
             (all_nodes CourseDesigner) planned)
    = [("course designer", "('reflect',)", 1, 3)]
  ∧ shown (run_agent CourseDesigner sample_env false (VStr "AI")
             (all_nodes CourseDesigner) drafted)
    = [("reflect", "('course designer',)", 1, 7)].
Proof. repeat split; vm_compute; reflexivity. Qed.

(** The same for every thread: a drafter or critique step on a state with
    count [c] leaves count [c + (c + 1)]. *)
Lemma count_after_step dep E t g r m c ln n rest :
  at_state g t r m c ln (n :: rest) →
  (n = Planner → is_Some (model_invoke E (calls g))) →
  ∃ v g', invoke dep E None t g = (Ok (Some v), g')
    ∧ v !! "count" = Some (VInt (c + reported_count n c)).
Proof.
  intros Hat Hresp.
  destruct (invoke_step dep E t g r m c ln n rest Hat Hresp)
    as (v & g' & Hinv & (ck' & Hl' & _ & _ & _ & Hc' & _) & _).
  exists v, g'. split; [done|].
  pose proof Hat as (ck & Hl & Hn & Hr & _ & Hc & _).
  destruct (exec_node dep E n (calls g) (ck_values ck)) as [x|e] eqn:Hx.
  - rewrite (invoke_resume dep E t g ck n rest x Hl Hn Hx) in Hinv.
    injection Hinv as <- <-.
    destruct (latest_append t (SLoop n) x (next_after n x) (count_call g))
      as (ck2 & Hl2 & Hv2 & _).
    rewrite Hl2 in Hl'. injection Hl' as <-. by rewrite <- Hv2.
  - by rewrite (invoke_resume_raise dep E t g ck n rest e Hl Hn Hx) in Hinv.
Qed.




(** ** The count channel under [update_state]: the general picture *)

Lemma backfill_keeps keys : ∀ (current updated : dict) k v,
  updated !! k = Some v → backfill keys current updated !! k = Some v.
Proof.
  induction keys as [|a keys IH]; intros current updated k v Hk; [done|].
  simpl. apply IH.
  destruct (updated !! a) eqn:Ha; [done|].
  assert (k ≠ a) by (intros ->; congruence).
  destruct (current !! a); [by rewrite lookup_insert_ne|].
  destruct (String.eqb a "retrieved_docs"); by rewrite lookup_insert_ne.
Qed.

Lemma node_of_node_name dep n : node_of_value dep (VStr (node_name dep n)) = Some n.
Proof. by destruct dep, n. Qed.

(** For every thread with a checkpoint whose count is an integer [c]:
    overwriting the plan appends one checkpoint, in which the plan is the
    new value, every other field that was stored is as before, except the
    count, which is [c + c]. *)
Lemma modify_state_plan dep (X : value) w ck c :
  thread_ts_of (thread w) = None →
  latest (graph_of w) (thread_id_of (thread w)) = Some ck →
  ck_values ck !! "count" = Some (VInt c) →
  ∃ new,
    log_of (graph_of (modify_state dep "plan" "planner" X w)) (thread_id_of (thread w))
      = log_of (graph_of w) (thread_id_of (thread w)) ++ [new]
    ∧ ck_values new !! "plan" = Some X
    ∧ ck_values new !! "count" = Some (VInt (c + c))
    ∧ (∀ k v, k ≠ "plan" → k ≠ "count" →
         ck_values ck !! k = Some v → ck_values new !! k = Some v).
Proof.
  intros Hts Hl Hc. unfold modify_state.
  assert (Engine.get_state (graph_of w) (thread w)
          = snapshot_of (thread_id_of (thread w)) ck) as ->.
  { unfold Engine.get_state. rewrite Hts. unfold latest in Hl. by rewrite Hl. }
  assert (lookup_name (write_key_map dep) "plan" = "plan") as -> by (by destruct dep).
  assert (lookup_name (node_map dep) "planner" = "planner") as -> by (by destruct dep).
  cbn [values snapshot_of].
  set (upd := backfill required_keys (ck_values ck) (<["plan":=X]> (ck_values ck))).
  assert (upd !! "plan" = Some X) as Hup
    by (apply backfill_keeps; by rewrite lookup_insert_eq).
  assert (∀ k v, k ≠ "plan" → ck_values ck !! k = Some v → upd !! k = Some v) as Hukeep
    by (intros k v Hne Hk; apply backfill_keeps; by rewrite lookup_insert_ne).
  unfold update_state.
  assert (node_of_value dep (VStr "planner") = Some Planner) as -> by (by destruct dep).
  assert (latest_values (graph_of w) (thread_id_of (thread w)) = ck_values ck) as ->
    by (unfold latest_values; by rewrite Hl).
  destruct (apply_writes_ok (ck_values ck) upd) as [v' Hv'].
  { intros x Hx. rewrite (Hukeep "count" (VInt c)) in Hx by done.
    injection Hx as <-. unfold get. by rewrite Hc. }
  rewrite Hv'. cbn [graph_of set_graph].
  eexists. split; [by rewrite log_of_append|]. cbn [ck_values].
  split; [by apply (apply_writes_set _ _ _ _ _ Hv'); [in_channels|done|]|].
  split.
  { apply (apply_writes_count _ _ _ _ _ Hv' (Hukeep "count" (VInt c) ltac:(done) Hc)).
    unfold get. by rewrite Hc. }
  intros k v Hnp Hnc Hk.
  destruct (decide (k ∈ channels)) as [Hin|Hout].
  - apply (apply_writes_set _ _ _ _ _ Hv'); [done|done|]. by apply Hukeep.
  - by rewrite (apply_writes_other _ _ _ _ Hv' Hout).
Qed.

Lemma find_some_fmap_reverse {A B} (P : A → bool) (Q : B → bool) (f : A → B)
    (l : list A) x :
  (∀ a, Q (f a) = P a) → List.find P l = Some x →
  ∃ y, List.find Q (f <$> reverse l) = Some (f y) ∧ P y = true ∧ y ∈ l.
Proof.
  intros HPQ Hfind.
  apply find_some in Hfind as [Hin HP].
  assert (∃ z, z ∈ reverse l ∧ P z = true) as Hex.
  { exists x. split; [|done]. rewrite elem_of_reverse. by apply list_elem_of_In. }
  clear Hin HP.
  assert (∀ l', (∃ z, z ∈ l' ∧ P z = true) → (∀ z, z ∈ l' → z ∈ reverse l) →
            ∃ y, List.find Q (f <$> l') = Some (f y) ∧ P y = true ∧ y ∈ l) as Hgen.
  { induction l' as [|a l' IH]; intros (z & Hz & HPz) Hsub; [set_solver|].
    simpl. rewrite HPQ. destruct (P a) eqn:Ha.
    - exists a. repeat split; [done|]. rewrite <- elem_of_reverse.
      apply Hsub, list_elem_of_here.
    - apply IH; [|intros ? ?; by apply Hsub, list_elem_of_further].
      exists z. split; [|done]. apply elem_of_cons in Hz as [->|Hz]; [congruence|done]. }
  by apply Hgen.
Qed.

(** For every thread: restoring a checkpoint [old] found under the id of
    the history entry appends one checkpoint, touches no other log, and
    copies every stored field of [old] into it, except the count: the new
    count is the current count plus the count of [old]. *)
Lemma copy_state_adds_count dep hist_str w old cur n c0 c :
  hist_str ≠ EmptyString →
  thread_ts_of (thread w) = None →
  List.find (λ ck, String.eqb (ck_ts ck) (last_segment hist_str))
    (log_of (graph_of w) (thread_id_of (thread w))) = Some old →
  latest (graph_of w) (thread_id_of (thread w)) = Some cur →
  ck_values old !! "lnode" = Some (VStr (node_name dep n)) →
  ck_values old !! "count" = Some (VInt c0) →
  ck_values cur !! "count" = Some (VInt c) →
  ∃ res w' new,
    copy_state dep hist_str w = (Ok res, w')
    ∧ log_of (graph_of w') (thread_id_of (thread w))
        = log_of (graph_of w) (thread_id_of (thread w)) ++ [new]
    ∧ (∀ t', thread_id_of (thread w) ≠ t' →
         log_of (graph_of w') t' = log_of (graph_of w) t')
    ∧ ck_values new !! "count" = Some (VInt (c + c0))
    ∧ (∀ k v, k ∈ channels → k ≠ "count" →
         ck_values old !! k = Some v → ck_values new !! k = Some v).
Proof.
  intros Hne Hts Hfind Hl Hln Hc0 Hc. unfold copy_state.
  assert (truthy (VStr hist_str) = true) as ->.
  { simpl. apply negb_true_iff. by apply String.eqb_neq. }
  cbn [negb].
  destruct (find_some_fmap_reverse
              (λ ck, String.eqb (ck_ts ck) (last_segment hist_str))
              (λ s, bool_decide (thread_ts_of (config_of s) = Some (last_segment hist_str)))
              (snapshot_of (thread_id_of (thread w)))
              (log_of (graph_of w) (thread_id_of (thread w))) old) as (y & Hy & HPy & _).
  { intros a. simpl. destruct (String.eqb_spec (ck_ts a) (last_segment hist_str)) as [->|Hd].
    - by apply bool_decide_eq_true_2.
    - apply bool_decide_eq_false_2. by intros [= ?]. }
  { exact Hfind. }
  unfold find_config, get_state_history. rewrite Hy. cbn [fmap option_fmap option_map].
  apply String.eqb_eq in HPy.
  assert (Engine.get_state (graph_of w) (config_of (snapshot_of (thread_id_of (thread w)) y))
          = snapshot_of (thread_id_of (thread w)) old) as ->.
  { unfold Engine.get_state. cbn [config_of snapshot_of thread_id_of thread_ts_of].
    by rewrite HPy, Hfind. }
  cbn [values snapshot_of]. unfold get at 1. rewrite Hln. cbn [default from_option id].
  unfold update_state. rewrite node_of_node_name.
  assert (latest_values (graph_of w) (thread_id_of (thread w)) = ck_values cur) as ->
    by (unfold latest_values; by rewrite Hl).
  destruct (apply_writes_ok (ck_values cur) (ck_values old)) as [v' Hv'].
  { intros x Hx. rewrite Hc0 in Hx. injection Hx as <-. unfold get. by rewrite Hc. }
  rewrite Hv'. eexists _, _, _. split; [reflexivity|].
  cbn [graph_of set_graph].
  split; [by rewrite log_of_append|].
  split; [intros t' Hd; by rewrite log_of_append_ne|].
  cbn [ck_values].
  split.
  { apply (apply_writes_count _ _ _ _ _ Hv' Hc0). unfold get. by rewrite Hc. }
  intros k v Hin Hnc Hk. by apply (apply_writes_set _ _ _ _ _ Hv').
Qed.

(** ** Restoring a checkpoint *)

(** C5, on the code.  Restoring the planner's checkpoint of [drafted]
    appends one checkpoint and leaves the three earlier ones as they were;
    the new checkpoint has the restored fields except count: the restored
    count 1 is added to the current count 3, which gives 4. *)
Theorem C5_restore_adds_count :
  planner_entry ∈ update_hist_pd CourseDesigner drafted
  ∧ (copy_state CourseDesigner planner_entry drafted).1
      = Ok (Copied (VStr "planner") [Drafter] "3" (VInt 0) (VInt 4))
  ∧ ∃ old new,
      log_of (graph_of drafted) "0" !! 1%nat = Some old
      ∧ ck_ts old = last_segment planner_entry
      ∧ log_of (graph_of restored) "0" = log_of (graph_of drafted) "0" ++ [new]
      ∧ ck_values old !! "count" = Some (VInt 1)
      ∧ latest_values (graph_of drafted) "0" !! "count" = Some (VInt 3)
      ∧ ck_values new !! "count" = Some (VInt 4)
      ∧ delete "count" (ck_values new) = delete "count" (ck_values old).
Proof.
  split; [vm_compute; set_solver|].
  split; [vm_compute; reflexivity|].
  eexists _, _.
  split; [vm_compute; reflexivity|].
  split; [vm_compute; reflexivity|].
  split; [vm_compute; reflexivity|].
  repeat split; vm_compute; reflexivity.
Qed.

Lemma find_none_fmap {A B} (P : B → bool) (f : A → B) (l : list A) :
  (∀ x, x ∈ l → P (f x) = false) → List.find P (f <$> l) = None.
Proof.
  induction l as [|a l IH]; intros H; [done|]. simpl.
  rewrite (H a) by set_solver. apply IH. intros x Hx. apply H. set_solver.
Qed.

Lemma find_config_absent thread_ts w :
  (∀ c, c ∈ log_of (graph_of w) (thread_id_of (thread w)) → ck_ts c ≠ thread_ts) →
  find_config thread_ts w = None.
Proof.
  intros H. unfold find_config, get_state_history.
  rewrite find_none_fmap; [done|].
  intros c Hc. rewrite elem_of_reverse in Hc. simpl.
  apply bool_decide_eq_false_2. intros [= Heq]. by apply (H c).
Qed.

(** C6, as the code has it.  When no checkpoint of the current thread has
    the id named by the history entry, [copy_state] answers with the blank
    tuple, the one it also gives for an empty selection, raises nothing and
    leaves the controller and every checkpoint log as they were. *)
Theorem C6_restore_unknown_id dep hist_str w :
  (∀ c, c ∈ log_of (graph_of w) (thread_id_of (thread w)) →
     ck_ts c ≠ last_segment hist_str) →
  copy_state dep hist_str w = (Ok Blank, w)
  ∧ copy_state dep EmptyString w = (Ok Blank, w).
Proof.
  intros H. split; [|done]. unfold copy_state.
  destruct (negb (truthy (VStr hist_str))); [done|].
  by rewrite (find_config_absent _ _ H).
Qed.

Lemma C6_witness :
  (∀ c, c ∈ log_of (graph_of drafted) (thread_id_of (thread drafted)) →
     ck_ts c ≠ last_segment unknown_entry)
  ∧ copy_state CourseDesigner unknown_entry drafted = (Ok Blank, drafted)
  ∧ copy_state CourseDesigner EmptyString drafted = (Ok Blank, drafted).
Proof.
  assert (∀ c, c ∈ log_of (graph_of drafted) (thread_id_of (thread drafted)) →
            ck_ts c ≠ last_segment unknown_entry) as H.
  { intros c Hc. vm_compute in Hc.
    repeat (apply elem_of_cons in Hc as [->|Hc]; [by vm_compute|]).
    by apply elem_of_nil in Hc. }
  split; [exact H|].
  exact (C6_restore_unknown_id CourseDesigner unknown_entry drafted H).
Defined.

(** C6 as stated fails: restoring an id that the thread never had does not
    fail; the call returns normally. *)
Lemma C6_counterexample :
  Forall (λ c, ck_ts c ≠ last_segment unknown_entry) (log_of (graph_of drafted) "0")
  ∧ is_ok (copy_state CourseDesigner unknown_entry drafted).1 = true
  ∧ (copy_state CourseDesigner unknown_entry drafted).2 = drafted.
Proof.
  split; [|split; vm_compute; reflexivity].
  vm_compute. repeat constructor; discriminate.
Qed.

(** ** Switching threads *)



(** ** Overwriting a field *)

(** C8, on the code.  After the plan of [planned] is overwritten with "X",
    reading the plan gives "X" and one checkpoint has been appended, with
    every field but plan and count as before; the count, written back
    through its adding channel, has doubled from 1 to 2. *)
Theorem C8_overwrite_doubles_count :
  value_of (get_state CourseDesigner "plan" overwritten) = VStr "X"
  ∧ (∃ new, log_of (graph_of overwritten) "0" = log_of (graph_of planned) "0" ++ [new])
  ∧ latest_values (graph_of planned) "0" !! "count" = Some (VInt 1)
  ∧ latest_values (graph_of overwritten) "0" !! "count" = Some (VInt 2)
  ∧ delete "plan" (delete "count" (latest_values (graph_of overwritten) "0"))
    = delete "plan" (delete "count" (latest_values (graph_of planned) "0")).
Proof.
  split; [vm_compute; reflexivity|].
  split; [eexists; vm_compute; reflexivity|].
  repeat split; vm_compute; reflexivity.
Qed.

(** ** Reading the state for display *)



(* ===================================================================== *)
(** * Further properties of the stages, the routing and the controller    *)
(* ===================================================================== *)

Import Sessions.

(** ** The stages *)

Ltac keep_key Hget Hnot Hk :=
  repeat (apply elem_of_cons in Hk as [->|Hk];
          [first [ by (exfalso; apply Hnot, (bool_decide_unpack _))
                 | by rewrite <- (Hget (VStr EmptyString))
                 | by rewrite <- (Hget (VInt 0))
                 | by rewrite <- (Hget (VInt 2))
                 | by rewrite <- (Hget (VDocs []))
                 | by rewrite <- (Hget (VStr "no draft yet"))
                 | by rewrite <- (Hget (VStr "no critique yet")) ]|]);
  by apply elem_of_nil in Hk.

(** The dict a stage returns repeats what is stored under every key the
    stage does not compute. *)
Lemma run_node_keeps dep E n call (st d : dict) k v :
  run_node dep E n call st = Ok d → k ∈ channels → k ∉ writes_of n →
  st !! k = Some v → d !! k = Some v.
Proof.
  intros Hrun Hk Hnot Hst.
  assert (∀ dflt, get st k dflt = v) as Hget by (intros; unfold get; by rewrite Hst).
  unfold channels in Hk.
  destruct n; simpl in Hrun.
  - unfold plan_node in Hrun. destruct (model_invoke E call); [|done].
    injection Hrun as <-. keep_key Hget Hnot Hk.
  - unfold writer_node in Hrun.
    destruct (add (get st "revision_number" (VInt 0)) (VInt 1)) as [rev|e1]; simpl in Hrun;
      [|by destruct (model_invoke E call)].
    destruct (add (get st "count" (VInt 0)) (VInt 1)) as [cnt|e2]; simpl in Hrun;
      [|by destruct (model_invoke E call)].
    destruct (model_invoke E call); simpl in Hrun; injection Hrun as <-;
      keep_key Hget Hnot Hk.
  - unfold reflection_node in Hrun.
    destruct (add (get st "count" (VInt 0)) (VInt 1)) as [cnt|e2]; simpl in Hrun;
      [|by destruct (model_invoke E call)].
    destruct (model_invoke E call); simpl in Hrun; injection Hrun as <-;
      keep_key Hget Hnot Hk.
Qed.

(** X1. A stage that returns leaves every stored field it does not compute
    as it was: the planner changes only plan, lnode, count and
    retrieved_docs; the drafter only draft, revision_number, lnode and
    count; the critique stage only critique, lnode and count.  This holds
    on the success path and on the error path of the two guarded stages. *)
Theorem X1_stage_frame dep E n call (st st' : dict) k v :
  exec_node dep E n call st = Ok st' → k ∉ writes_of n →
  st !! k = Some v → st' !! k = Some v.
Proof.
  intros Hx Hnot Hst. unfold exec_node in Hx.
  destruct (run_node dep E n call st) as [d|e] eqn:Hd; [|done]. simpl in Hx.
  destruct (decide (k ∈ channels)) as [Hin|Hout].
  - assert (k ≠ "count") as Hnc
      by (intros ->; apply Hnot; destruct n; by apply (bool_decide_unpack _)).
    apply (apply_writes_set _ _ _ _ _ Hx Hin Hnc).
    by eapply run_node_keeps.
  - by rewrite (apply_writes_other _ _ _ _ Hx Hout).
Qed.

Lemma X1_witness :
  ∃ st',
    exec_node CourseDesigner failing_env Drafter 1 (initial_state (VStr "AI")) = Ok st'
    ∧ st' !! "plan" = Some (VStr "no plan").
Proof.
  destruct (exec_node_ok CourseDesigner failing_env Drafter 1 (initial_state (VStr "AI"))
              0 0 eq_refl eq_refl ltac:(done)) as (st' & Hx & _).
  exists st'. split; [exact Hx|].
  apply (X1_stage_frame CourseDesigner failing_env Drafter 1
           (initial_state (VStr "AI")) st' "plan" (VStr "no plan") Hx).
  - by apply (bool_decide_unpack _).
  - reflexivity.
Defined.

(** X2. The critique stage when its model call fails: the resumption
    still returns, the critique is the fixed error text, the step is
    counted like a successful one (the count [c] becomes [c + (c + 1)]),
    the revision number is kept, and the drafter is next. *)
Theorem X2_failed_critique dep E t g r m c ln rest :
  at_state g t r m c ln (Finalizer :: rest) →
  model_invoke E (calls g) = None →
  ∃ v g',
    invoke dep E None t g = (Ok (Some v), g')
    ∧ v !! "critique" = Some (VStr (finalize_error_text dep))
    ∧ at_state g' t r m (c + (c + 1)) (VStr (node_name dep Finalizer)) [Drafter]
    ∧ executed g' t = executed g t ++ [Finalizer].
Proof.
  intros Hat Hfail.
  pose proof Hat as (ck & Hl & Hn & Hr & Hm & Hc & Hln).
  destruct (invoke_step dep E t g r m c ln Finalizer rest Hat ltac:(done))
    as (v & g' & Hinv & Hat' & Hex & _).
  exists v, g'. split; [exact Hinv|].
  destruct (exec_node dep E Finalizer (calls g) (ck_values ck)) as [x|e] eqn:Hx.
  2: { by rewrite (invoke_resume_raise dep E t g ck Finalizer rest e Hl Hn Hx) in Hinv. }
  rewrite (invoke_resume dep E t g ck Finalizer rest x Hl Hn Hx) in Hinv.
  injection Hinv as <- _.
  split; [|by split].
  pose proof Hx as Hx'. unfold exec_node in Hx'. simpl in Hx'. rewrite Hfail in Hx'.
  unfold reflection_node in Hx'. simpl in Hx'.
  unfold get in Hx' at 1. rewrite Hc in Hx'. simpl in Hx'.
  by apply (apply_writes_set _ _ _ _ _ Hx'); [in_channels|done|].
Qed.

Lemma X2_witness :
  at_state (graph_of drafted) "0" 1 2 3 (VStr "course designer") [Finalizer]
  ∧ ∃ v g',
      invoke CourseDesigner failing_env None "0" (graph_of drafted) = (Ok (Some v), g')
      ∧ v !! "critique" = Some (VStr "Error occurred during reflection.")
      ∧ at_state g' "0" 1 2 7 (VStr "reflect") [Drafter].
Proof.
  assert (at_state (graph_of drafted) "0" 1 2 3 (VStr "course designer") [Finalizer])
    as Hat.
  { eexists. split; [vm_compute; reflexivity|]. repeat split; vm_compute; reflexivity. }
  split; [exact Hat|].
  destruct (X2_failed_critique CourseDesigner failing_env "0" (graph_of drafted)
              1 2 3 _ [] Hat eq_refl) as (v & g' & H1 & H2 & H3 & _).
  exists v, g'. repeat split; assumption.
Defined.

(** ** Routing *)

(** X3. A [max_revisions] that is no integer (a text, [None], a list)
    makes the comparison of [should_continue] raise; the handler ends the
    process: the drafter's step is saved with the revision number raised
    by one, nothing is next, and no error reaches the caller. *)
Theorem X3_malformed_max_revisions dep E t g ck r c mv rest :
  latest g t = Some ck → ck_next ck = Drafter :: rest →
  ck_values ck !! "revision_number" = Some (VInt r) →
  ck_values ck !! "count" = Some (VInt c) →
  ck_values ck !! "max_revisions" = Some mv →
  not_an_int mv →
  ∃ v g' ck',
    invoke dep E None t g = (Ok (Some v), g')
    ∧ latest g' t = Some ck' ∧ ck_values ck' = v ∧ ck_next ck' = []
    ∧ v !! "revision_number" = Some (VInt (r + 1))
    ∧ v !! "max_revisions" = Some mv.
Proof.
  intros Hl Hn Hr Hc Hm Hbad.
  destruct (exec_node_ok dep E Drafter (calls g) (ck_values ck) r c)
    as (v & Hx & Hr' & _ & _ & Hm' & _).
  { unfold get. by rewrite Hr. }
  { unfold get. by rewrite Hc. }
  { done. }
  unfold get in Hm'. rewrite Hm in Hm'. simpl in Hm', Hr'.
  destruct (latest_append t (SLoop Drafter) v (next_after Drafter v) (count_call g))
    as (ck' & Hl' & Hv' & Hn' & _).
  eexists v, _, ck'. split; [by eapply invoke_resume|].
  split; [exact Hl'|]. split; [exact Hv'|].
  split; [|done].
  rewrite Hn'. simpl. unfold should_continue, get. rewrite Hr', Hm'. simpl.
  destruct mv; try done. by destruct (Hbad z).
Qed.

Lemma X3_witness :
  ∃ v g' ck',
    invoke CourseDesigner sample_env None "0"
      (graph_of (modify_state CourseDesigner "max_revisions" "planner" (VStr "many")
                   planned))
      = (Ok (Some v), g')
    ∧ latest g' "0" = Some ck' ∧ ck_next ck' = []
    ∧ v !! "max_revisions" = Some (VStr "many").
Proof.
  set (w := modify_state CourseDesigner "max_revisions" "planner" (VStr "many") planned).
  assert (∃ ck, latest (graph_of w) "0" = Some ck
                ∧ ck_next ck = [Drafter]
                ∧ ck_values ck !! "revision_number" = Some (VInt 0)
                ∧ ck_values ck !! "count" = Some (VInt 2)
                ∧ ck_values ck !! "max_revisions" = Some (VStr "many"))
    as (ck & Hl & Hn & Hr & Hc & Hm).
  { eexists. split; [vm_compute; reflexivity|]. repeat split; vm_compute; reflexivity. }
  assert (not_an_int (VStr "many")) as Hbad by (intros z; discriminate).
  destruct (X3_malformed_max_revisions CourseDesigner sample_env "0" (graph_of w) ck
              0 2 (VStr "many") [] Hl Hn Hr Hc Hm Hbad)
    as (v & g' & ck' & H1 & H2 & _ & H4 & _ & H6).
  exists v, g', ck'. repeat split; assumption.
Defined.

Lemma resume_S dep E t k g :
  resume dep E t (S k) g = resume dep E t k (invoke dep E None t g).2.
Proof. done. Qed.

(** X4. The revision loop for every [max_revisions].  A thread whose next
    stage is the drafter, with revision number [r] and [max_revisions]
    [m >= r], finishes after exactly [2 (m - r) + 1] resumptions, whatever
    the model answers and whether or not its calls fail: draft and critique
    alternate [m - r] times, a last draft follows, the revision number ends
    at [m + 1] and nothing is next.  Each step doubles the count and adds
    one, so a count [c] ends at [(c + 1) * 2 ^ (2 (m - r) + 1) - 1]. *)
Theorem X4_revise_loop dep E t : ∀ (d : nat) g r m c ln,
  at_state g t r m c ln [Drafter] → m - r = Z.of_nat d →
  at_state (resume dep E t (S (2 * d)) g) t (m + 1) m
    ((c + 1) * 2 ^ (2 * Z.of_nat d + 1) - 1) (VStr (node_name dep Drafter)) []
  ∧ executed (resume dep E t (S (2 * d)) g) t = executed g t ++ revisions d
  ∧ calls (resume dep E t (S (2 * d)) g) = (calls g + S (2 * d))%nat.
Proof.
  induction d as [|d IH]; intros g r m c ln Hat Hd.
  - destruct (invoke_step dep E t g r m c ln Drafter [] Hat ltac:(done))
      as (v' & g' & Hinv & Hat' & Hex & Hcalls & _).
    change (2 * 0)%nat with 0%nat. rewrite resume_S, Hinv.
    cbn [snd resume revisions].
    assert (r = m) as -> by lia.
    unfold route, revision_after, reported_count in Hat'.
    rewrite (proj2 (Z.ltb_lt m (m + 1))) in Hat' by lia.
    change (2 * Z.of_nat 0 + 1) with 1. rewrite Z.pow_1_r.
    replace ((c + 1) * 2 - 1) with (c + (c + 1)) by lia.
    split; [done|]. split; [done|]. lia.
  - destruct (invoke_step dep E t g r m c ln Drafter [] Hat ltac:(done))
      as (v1 & g1 & Hinv1 & Hat1 & Hex1 & Hcalls1 & _).
    unfold route, revision_after, reported_count in Hat1.
    rewrite (proj2 (Z.ltb_ge m (r + 1))) in Hat1 by lia.
    destruct (invoke_step dep E t g1 _ _ _ _ Finalizer [] Hat1 ltac:(done))
      as (v2 & g2 & Hinv2 & Hat2 & Hex2 & Hcalls2 & _).
    unfold route, revision_after, reported_count in Hat2.
    replace (2 * S d)%nat with (S (S (2 * d))) by lia.
    rewrite resume_S, Hinv1. cbn [snd]. rewrite resume_S, Hinv2. cbn [snd revisions].
    assert (m - (r + 1) = Z.of_nat d) as Hd' by lia.
    destruct (IH g2 (r + 1) m _ _ Hat2 Hd') as (H1 & H2 & H3).
    split.
    { replace ((c + 1) * 2 ^ (2 * Z.of_nat (S d) + 1) - 1)
        with ((c + (c + 1) + (c + (c + 1) + 1) + 1) * 2 ^ (2 * Z.of_nat d + 1) - 1); [done|].
      replace (2 * Z.of_nat (S d) + 1) with (2 * Z.of_nat d + 1 + 2) by lia.
      rewrite (Z.pow_add_r 2 (2 * Z.of_nat d + 1) 2) by lia. change (2 ^ 2) with 4.
      generalize (2 ^ (2 * Z.of_nat d + 1)). intros p. ring. }
    split.
    { rewrite H2, Hex2, Hex1. by rewrite <- !app_assoc. }
    lia.
Qed.

Lemma X4_witness :
  at_state (graph_of planned) "0" 0 2 1 (VStr "planner") [Drafter]
  ∧ at_state (resume CourseDesigner failing_env "0" 5 (graph_of planned)) "0" 3 2 63
      (VStr "course designer") []
  ∧ executed (resume CourseDesigner failing_env "0" 5 (graph_of planned)) "0"
    = executed (graph_of planned) "0" ++ [Drafter; Finalizer; Drafter; Finalizer; Drafter].
Proof.
  assert (at_state (graph_of planned) "0" 0 2 1 (VStr "planner") [Drafter]) as Hat.
  { eexists. split; [vm_compute; reflexivity|]. repeat split; vm_compute; reflexivity. }
  split; [exact Hat|].
  destruct (X4_revise_loop CourseDesigner failing_env "0" 2 _ 0 2 1 _ Hat eq_refl)
    as (H1 & H2 & _).
  split; [exact H1|exact H2].
Defined.

(** ** The controller *)

(** X5. A run started on a fresh thread whose planner call fails (the
    planner is the one stage without a handler): [run_agent] yields one
    error report and returns; no stage has run, the turn is not counted,
    and the thread holds the input with the planner next, so that it can be
    continued. *)
Theorem X5_failed_planner dep E topic stop_after w :
  fresh_start w → model_invoke E (calls (graph_of w)) = None →
  ∃ w',
    run_agent dep E true topic stop_after w = Some ([error_report w'], w')
    ∧ partial_message w' = [LError GenerationError]
    ∧ thread_id w' = thread_id w + 1
    ∧ iterations w' = iterations w ++ [0]
    ∧ executed (graph_of w') (pretty (thread_id w')) = []
    ∧ at_state (graph_of w') (pretty (thread_id w')) 0 2 0 (VStr EmptyString) [Planner]
    ∧ calls (graph_of w') = S (calls (graph_of w)).
Proof.
  intros Hfresh Hresp.
  pose proof (fresh_start_on_last w Hfresh) as (Hits & Hlen & Hthr).
  destruct Hfresh as [Hid Hlog].
  destruct (start_state (pretty (thread_id w + 1)) (graph_of w) topic Hlog)
    as (v & Hv & Hat).
  unfold run_agent. cbn [negb].
  set (w2 := set_thread (start_thread w)) in *.
  rewrite Hits, (index_snoc _ _ _ Hlen).
  change (Z.to_nat (max_iterations - 0)) with 10%nat.
  rewrite run_agent_loop_unfold, Hits, (index_snoc _ _ _ Hlen).
  change (0 <? max_iterations) with true. cbv iota.
  rewrite Hthr. cbn [thread_id_of thread_config].
  change (thread_id w2) with (thread_id w + 1).
  change (graph_of w2) with (graph_of w).
  rewrite (invoke_start _ _ _ _ _ _ Hv).
  destruct Hat as (ck & Hl & Hn & Hr & Hm & Hc & Hln).
  rewrite (invoke_resume_raise dep E _ _ ck Planner [] GenerationError Hl Hn).
  2:{ unfold exec_node, run_node, plan_node. by rewrite calls_append, Hresp. }
  eexists. split; [reflexivity|].
  cbn [partial_message log set_graph thread_id iterations graph_of].
  split; [done|]. split; [done|]. split; [done|].
  change (thread_id w2) with (thread_id w + 1).
  assert (latest (count_call (append_checkpoint (pretty (thread_id w + 1)) SInput v
                    [entry_point] (graph_of w))) (pretty (thread_id w + 1)) = Some ck)
    as Hl' by (by rewrite latest_count_call).
  split; [|split; [by exists ck|done]].
  unfold executed. by rewrite log_of_count_call, log_of_append, Hlog.
Qed.

Lemma X5_witness :
  fresh_start (init empty_graph)
  ∧ ∃ w',
    run_agent CaseStrategy failing_env true (VStr "ESG") [] (init empty_graph)
      = Some ([error_report w'], w')
    ∧ partial_message w' = [LError GenerationError]
    ∧ executed (graph_of w') "0" = []
    ∧ iterations w' = [0].
Proof.
  assert (fresh_start (init empty_graph)) as Hfresh by (split; reflexivity).
  split; [exact Hfresh|].
  destruct (X5_failed_planner CaseStrategy failing_env (VStr "ESG") [] (init empty_graph)
              Hfresh eq_refl) as (w' & H1 & H2 & H3 & H4 & H5 & _).
  exists w'. rewrite H3 in H5. repeat split; assumption.
Defined.

(** ** Sessions *)

Lemma touches_only_refl t g : touches_only t g g.
Proof. split; [reflexivity|done]. Qed.

Lemma touches_only_trans t g1 g2 g3 :
  touches_only t g1 g2 → touches_only t g2 g3 → touches_only t g1 g3.
Proof.
  intros [H1 H1'] [H2 H2']. split; [by etrans|].
  intros t' Hne. by rewrite H2', H1'.
Qed.

Lemma touches_only_append t src v nx g :
  touches_only t g (append_checkpoint t src v nx g).
Proof.
  split.
  - rewrite log_of_append. by apply prefix_app_r.
  - intros t' Hne. by rewrite log_of_append_ne.
Qed.

Lemma touches_only_count_call t g : touches_only t g (count_call g).
Proof. split; [by rewrite log_of_count_call|done]. Qed.

Lemma run_loop_touches_only dep E fuel t g out r g' :
  run_loop dep E fuel t g out = (r, g') → touches_only t g g'.
Proof.
  destruct fuel as [|fuel]; intros H.
  - simpl in H. injection H as _ <-. apply touches_only_refl.
  - rewrite run_loop_unfold in H.
    destruct (latest g t) as [c|]; [|injection H as _ <-; apply touches_only_refl].
    destruct (ck_next c) as [|n ns]; [injection H as _ <-; apply touches_only_refl|].
    destruct (exec_node dep E n (calls g) (ck_values c)) as [v|e].
    + cbv zeta in H. rewrite interrupt_after_all in H. injection H as _ <-.
      apply (touches_only_append t (SLoop n) v (next_after n v) (count_call g)).
    + injection H as _ <-. apply touches_only_count_call.
Qed.

Lemma invoke_touches_only dep E input t g r g' :
  invoke dep E input t g = (r, g') → touches_only t g g'.
Proof.
  unfold invoke. destruct input as [cfg|].
  - destruct (apply_writes (latest_values g t) cfg);
      [|intros [= _ <-]; apply touches_only_refl].
    intros H%run_loop_touches_only.
    eapply touches_only_trans; [apply touches_only_append|exact H].
  - apply run_loop_touches_only.
Qed.

Lemma update_state_touches_only dep t vals as_node g :
  touches_only t g (update_state dep t vals as_node g).2.
Proof.
  unfold update_state.
  destruct (node_of_value dep as_node); [|apply touches_only_refl].
  destruct (apply_writes (latest_values g t) vals); [|apply touches_only_refl].
  apply touches_only_append.
Qed.

Lemma run_agent_loop_zero dep E stop_after config w :
  run_agent_loop dep E 0 stop_after config w =
  match index (iterations w) (thread_id w) with
  | Raise e => let w' := log [LCritical e] w in Some ([error_report w'], w')
  | Ok it => if it <? max_iterations then None else Some ([], w)
  end.
Proof. done. Qed.

(** A property of the graph that [invoke] keeps on the thread of the
    controller is kept by the loop of [run_agent]. *)
Lemma run_agent_loop_keeps (P : graph → Prop) dep E stop_after t :
  (∀ input g r g', run_input input → P g →
     invoke dep E input t g = (r, g') → P g') →
  ∀ fuel config w rs w',
    thread_id_of (thread w) = t →
    run_input config →
    P (graph_of w) →
    run_agent_loop dep E fuel stop_after config w = Some (rs, w') →
    P (graph_of w').
Proof.
  intros Hinv. induction fuel as [|fuel IH]; intros config w rs w' Ht Hcfg HP Hrun.
  - rewrite run_agent_loop_zero in Hrun.
    destruct (index (iterations w) (thread_id w)) as [it|e]; [|by injection Hrun as _ <-].
    destruct (it <? max_iterations); [done|by injection Hrun as _ <-].
  - rewrite run_agent_loop_unfold in Hrun.
    destruct (index (iterations w) (thread_id w)) as [it|e]; [|by injection Hrun as _ <-].
    destruct (it <? max_iterations); [|by injection Hrun as _ <-].
    rewrite Ht in Hrun.
    destruct (invoke dep E config t (graph_of w)) as [[resp|e] g'] eqn:Hi.
    2: { injection Hrun as _ <-. by eapply Hinv. }
    pose proof (Hinv _ _ _ _ Hcfg HP Hi) as HP'.
    destruct (set_index (iterations w) (thread_id w) (it + 1)) as [its|e];
      [|by injection Hrun as _ <-].
    cbv zeta in Hrun.
    destruct (negb _); [by injection Hrun as _ <-|].
    destruct (bool_decide _); [by injection Hrun as _ <-|].
    match type of Hrun with context [run_agent_loop dep E fuel stop_after None ?wm] =>
      destruct (run_agent_loop dep E fuel stop_after None wm) as [[rs' w'']|] eqn:Hrec;
        [|done];
      injection Hrun as _ <-;
      exact (IH None wm rs' w'' Ht (or_introl eq_refl) HP' Hrec)
    end.
Qed.

Lemma run_agent_keeps (P : graph → Prop) dep E start topic stop_after w rs w' :
  (∀ input g r g', run_input input → P g →
     invoke dep E input (target (Run start topic stop_after) w) g = (r, g') → P g') →
  P (graph_of w) →
  run_agent dep E start topic stop_after w = Some (rs, w') →
  P (graph_of w').
Proof.
  intros Hinv HP Hrun. unfold run_agent in Hrun.
  eapply run_agent_loop_keeps in Hrun; [done|exact Hinv|by destruct start| |by destruct start].
  destruct start; [right; by eexists|by left].
Qed.

(** X6. Every action of the controller works on one thread: [run_agent]
    on the thread numbered by [thread_id] (the next number when a run is
    started), [copy_state] and [modify_state] on the thread of
    [self.thread].  The log of that thread is only extended, no saved
    checkpoint is changed or dropped, and the log of every other thread is
    left as it was; [switch_thread] changes no log at all. *)
Theorem X6_one_thread dep E a w :
  touches_only (target a w) (graph_of w) (graph_of (act dep E a w)).
Proof.
  destruct a as [start topic sa|h|i|k n v]; cbn [act].
  - destruct (run_agent dep E start topic sa w) as [[rs w']|] eqn:Hrun;
      [|apply touches_only_refl].
    apply (run_agent_keeps (touches_only (target (Run start topic sa) w) (graph_of w))
             dep E start topic sa w rs w'); [|apply touches_only_refl|exact Hrun].
    intros input g r g' _ Hg Hi.
    eapply touches_only_trans; [exact Hg|by eapply invoke_touches_only].
  - unfold copy_state. destruct (negb _); [apply touches_only_refl|].
    destruct (find_config _ w) as [cfg|]; [|apply touches_only_refl].
    match goal with |- context [update_state ?d ?t0 ?vs ?nd ?g] =>
      pose proof (update_state_touches_only d t0 vs nd g) as Hu;
      destruct (update_state d t0 vs nd g) as [[u|e] g'] end; exact Hu.
  - apply touches_only_refl.
  - unfold modify_state.
    match goal with |- context [update_state ?d ?t0 ?vs ?nd ?g] =>
      pose proof (update_state_touches_only d t0 vs nd g) as Hu;
      destruct (update_state d t0 vs nd g) as [r g'] end; exact Hu.
Qed.

(** *** The count is an integer in every checkpoint *)

Lemma apply_writes_on_written keys : ∀ (vals writes v' : dict) k w,
  NoDup keys → apply_writes_on keys vals writes = Ok v' →
  k ∈ keys → writes !! k = Some w →
  ∃ v, update_channel k (vals !! k) w = Ok v ∧ v' !! k = Some v.
Proof.
  induction keys as [|a keys IH]; intros vals writes v' k w Hnd Hok Hk Hw;
    [by apply elem_of_nil in Hk|].
  apply NoDup_cons in Hnd as [Hna Hnd]. simpl in Hok.
  destruct (decide (k = a)) as [->|Hne].
  - rewrite Hw in Hok.
    destruct (update_channel a (vals !! a) w) as [v|e]; [|done]. simpl in Hok.
    exists v. split; [done|].
    rewrite (apply_writes_on_lookup _ _ _ _ Hnd Hok a).
    rewrite decide_False by done. by rewrite lookup_insert_eq.
  - apply elem_of_cons in Hk as [?|Hk]; [done|].
    destruct (writes !! a) as [wa|].
    + destruct (update_channel a (vals !! a) wa) as [va|e]; [|done]. simpl in Hok.
      destruct (IH _ _ _ _ _ Hnd Hok Hk Hw) as (v & Hv & Hv').
      rewrite lookup_insert_ne in Hv by done. by exists v.
    + by apply (IH _ _ _ _ _ Hnd Hok Hk Hw).
Qed.

(** A write that succeeds leaves an integer count, when the count was an
    integer or missing and is either written or already there. *)
Lemma apply_writes_count_int (vals writes v' : dict) :
  int_or_missing (vals !! "count") →
  is_Some (writes !! "count") ∨ is_Some (vals !! "count") →
  apply_writes vals writes = Ok v' →
  ∃ z, v' !! "count" = Some (VInt z).
Proof.
  intros Hold Hsome Hok.
  destruct (writes !! "count") as [w|] eqn:Hw.
  - assert ("count" ∈ channels) as Hin by in_channels.
    destruct (apply_writes_on_written _ _ _ _ _ _ NoDup_channels Hok Hin Hw)
      as (v & Hv & ->).
    rewrite update_channel_count in Hv.
    destruct Hold as [Hn|[z Hz]]; [rewrite Hn in Hv|rewrite Hz in Hv];
      simpl in Hv; destruct w; simplify_eq; by eexists.
  - rewrite (apply_writes_keep _ _ _ _ Hok Hw).
    destruct Hsome as [[? ?]|[x Hx]]; [done|].
    destruct Hold as [Hn|[z Hz]]; [congruence|by eexists].
Qed.

Lemma run_node_writes_count dep E n call (st d : dict) :
  run_node dep E n call st = Ok d → is_Some (d !! "count").
Proof.
  intros Hrun. destruct n; simpl in Hrun.
  - unfold plan_node in Hrun. destruct (model_invoke E call); [|done].
    injection Hrun as <-. by eexists.
  - unfold writer_node in Hrun.
    destruct (add (get st "revision_number" (VInt 0)) (VInt 1)) as [rev|e1]; simpl in Hrun;
      [|by destruct (model_invoke E call)].
    destruct (add (get st "count" (VInt 0)) (VInt 1)) as [cnt|e2]; simpl in Hrun;
      [|by destruct (model_invoke E call)].
    destruct (model_invoke E call); simpl in Hrun; injection Hrun as <-; by eexists.
  - unfold reflection_node in Hrun.
    destruct (add (get st "count" (VInt 0)) (VInt 1)) as [cnt|e2]; simpl in Hrun;
      [|by destruct (model_invoke E call)].
    destruct (model_invoke E call); simpl in Hrun; injection Hrun as <-; by eexists.
Qed.

Lemma count_is_int_latest g t :
  count_is_int g → int_or_missing (latest_values g t !! "count").
Proof.
  intros Hg. unfold latest_values, latest.
  destruct (last (log_of g t)) as [c|] eqn:Hl; [|by left].
  right. apply (Hg t c). apply last_Some in Hl as [l' ->]. set_solver.
Qed.

Lemma count_is_int_append t src v nx g z :
  count_is_int g → v !! "count" = Some (VInt z) →
  count_is_int (append_checkpoint t src v nx g).
Proof.
  intros Hg Hv t' ck Hck. destruct (decide (t = t')) as [<-|Hne].
  - rewrite log_of_append in Hck. apply elem_of_app in Hck as [Hck|Hck]; [by eapply Hg|].
    apply list_elem_of_singleton in Hck as ->. by eexists.
  - rewrite log_of_append_ne in Hck by done. by eapply Hg.
Qed.

Lemma run_loop_count_is_int dep E fuel t g out r g' :
  count_is_int g → run_loop dep E fuel t g out = (r, g') → count_is_int g'.
Proof.
  destruct fuel as [|fuel]; intros Hg H.
  - simpl in H. by injection H as _ <-.
  - rewrite run_loop_unfold in H.
    destruct (latest g t) as [c|] eqn:Hl; [|by injection H as _ <-].
    destruct (ck_next c) as [|n ns]; [by injection H as _ <-|].
    destruct (exec_node dep E n (calls g) (ck_values c)) as [v|e] eqn:Hx.
    + cbv zeta in H. rewrite interrupt_after_all in H. injection H as _ <-.
      unfold exec_node in Hx.
      destruct (run_node dep E n (calls g) (ck_values c)) as [d|] eqn:Hd; [|done].
      simpl in Hx.
      destruct (apply_writes_count_int (ck_values c) d v) as [z Hz]; [| |done|].
      * pose proof (count_is_int_latest g t Hg) as H'.
        unfold latest_values in H'. by rewrite Hl in H'.
      * left. by eapply run_node_writes_count.
      * by eapply count_is_int_append.
    + by injection H as _ <-.
Qed.

Lemma initial_state_count topic : initial_state topic !! "count" = Some (VInt 0).
Proof. by vm_compute. Qed.

Lemma invoke_count_is_int dep E input t g r g' :
  run_input input → count_is_int g →
  invoke dep E input t g = (r, g') → count_is_int g'.
Proof.
  intros Hin Hg. unfold invoke. destruct Hin as [->|[topic ->]].
  - by apply run_loop_count_is_int.
  - destruct (apply_writes (latest_values g t) (initial_state topic)) as [v|e] eqn:Hv;
      [|by intros [= _ <-]].
    apply run_loop_count_is_int.
    destruct (apply_writes_count_int _ _ _ (count_is_int_latest g t Hg)
                (or_introl (mk_is_Some _ _ (initial_state_count topic))) Hv) as [z Hz].
    by eapply count_is_int_append.
Qed.

Lemma update_state_count_is_int dep t (vals : dict) as_node g :
  is_Some (vals !! "count") → count_is_int g →
  count_is_int (update_state dep t vals as_node g).2.
Proof.
  intros Hc Hg. unfold update_state.
  destruct (node_of_value dep as_node); [|done].
  destruct (apply_writes (latest_values g t) vals) as [v|e] eqn:Hv; [|done].
  destruct (apply_writes_count_int _ _ _ (count_is_int_latest g t Hg)
              ltac:(by left) Hv) as [z Hz].
  by eapply count_is_int_append.
Qed.

(** [modify_state] fills in every required key. *)
Lemma backfill_fills keys : ∀ (current updated : dict) k,
  k ∈ keys → is_Some (backfill keys current updated !! k).
Proof.
  induction keys as [|a keys IH]; intros current updated k Hk; [by apply elem_of_nil in Hk|].
  simpl. apply elem_of_cons in Hk as [->|Hk]; [|by apply IH].
  destruct (updated !! a) as [x|] eqn:Ha.
  - exists x. by apply backfill_keeps.
  - destruct (current !! a) as [y|].
    + exists y. apply backfill_keeps. by rewrite lookup_insert_eq.
    + destruct (String.eqb a "retrieved_docs"); eexists;
        apply backfill_keeps; by rewrite lookup_insert_eq.
Qed.

Lemma find_elem_of {A} (P : A → bool) (l : list A) x :
  List.find P l = Some x → x ∈ l.
Proof. intros H%find_some. apply list_elem_of_In. tauto. Qed.

Lemma get_state_cases g cfg :
  Engine.get_state g cfg = empty_snapshot cfg
  ∨ ∃ c, c ∈ log_of g (thread_id_of cfg)
         ∧ Engine.get_state g cfg = snapshot_of (thread_id_of cfg) c.
Proof.
  unfold Engine.get_state. destruct (thread_ts_of cfg) as [ts|].
  - destruct (List.find _ _) as [c|] eqn:Hc; [|by left].
    right. exists c. split; [by eapply find_elem_of|done].
  - destruct (last _) as [c|] eqn:Hc; [|by left].
    right. exists c. split; [|done]. apply last_Some in Hc as [l' ->]. set_solver.
Qed.

Lemma find_config_thread ts w cfg :
  find_config ts w = Some cfg → thread_id_of cfg = thread_id_of (thread w).
Proof.
  unfold find_config, get_state_history. intros H.
  apply fmap_Some in H as (s & Hs & ->). apply find_elem_of in Hs.
  apply list_elem_of_fmap in Hs as (c & -> & _). done.
Qed.

Lemma act_count_is_int dep E a w :
  count_is_int (graph_of w) → count_is_int (graph_of (act dep E a w)).
Proof.
  intros Hg. destruct a as [start topic sa|h|i|k n v]; cbn [act].
  - destruct (run_agent dep E start topic sa w) as [[rs w']|] eqn:Hrun; [|done].
    apply (run_agent_keeps count_is_int dep E start topic sa w rs w'); [|done|done].
    intros input g r g' Hin HP Hi. by eapply invoke_count_is_int.
  - unfold copy_state. destruct (negb _); [done|].
    destruct (find_config _ w) as [cfg|] eqn:Hf; [|done].
    assert (count_is_int
      (update_state dep (thread_id_of (thread w))
         (values (Engine.get_state (graph_of w) cfg))
         (get (values (Engine.get_state (graph_of w) cfg)) "lnode" (VStr EmptyString))
         (graph_of w)).2) as Hupd.
    { destruct (get_state_cases (graph_of w) cfg) as [->|(c & Hc & ->)].
      - by destruct dep.
      - rewrite (find_config_thread _ _ _ Hf) in Hc.
        apply update_state_count_is_int; [|exact Hg].
        destruct (Hg _ _ Hc) as [z Hz]. simpl. by rewrite Hz. }
    by destruct (update_state _ _ _ _ _) as [[u|e] g'].
  - done.
  - unfold modify_state.
    match goal with |- context [update_state ?d ?t0 ?vs ?nd ?g] =>
      pose proof (update_state_count_is_int d t0 vs nd g) as Hu;
      destruct (update_state d t0 vs nd g) as [r g'] end.
    apply Hu; [|exact Hg]. apply backfill_fills. in_channels.
Qed.

(** X7. The step count stored in a checkpoint is always an integer.
    Starting from a graph in which this holds (the empty graph for one),
    it holds after any sequence of runs, restores, thread switches and
    overwrites, whatever the model answers and whatever is typed into a
    field: a write that would store something else under count fails in
    the adding channel and saves nothing. *)
Theorem X7_count_is_int dep E acts : ∀ w,
  count_is_int (graph_of w) → count_is_int (graph_of (session dep E acts w)).
Proof.
  induction acts as [|a acts IH]; intros w Hw; [done|].
  simpl. apply IH. by apply act_count_is_int.
Qed.

Lemma X7_witness :
  count_is_int (graph_of (init empty_graph))
  ∧ count_is_int
      (graph_of (session CaseStrategy sample_env
                   [Run true (VStr "ESG") ["planner"];
                    Modify "count" "planner" (VStr "seven");
                    Run false VNone []]
                   (init empty_graph))).
Proof.
  assert (count_is_int (graph_of (init empty_graph))) as H.
  { intros t ck Hck. unfold log_of in Hck. simpl in Hck.
    rewrite lookup_empty in Hck. by apply elem_of_nil in Hck. }
  split; [exact H|].
  exact (X7_count_is_int CaseStrategy sample_env _ (init empty_graph) H).
Defined.

(** *** The turns of a thread *)











(** *** Overwriting a field and reading it back *)

(** The two key maps agree: a field is read under the key it is written. *)
Lemma read_key_write_key dep key :
  lookup_name (read_key_map dep) key = lookup_name (write_key_map dep) key.
Proof.
  unfold lookup_name.
  destruct dep; cbn [read_key_map write_key_map List.find fst];
    (destruct (String.eqb _ key) eqn:H1; [done|]);
    (destruct (String.eqb "draft" key) eqn:H2; [|done]);
    apply String.eqb_eq in H2 as <-; done.
Qed.

(** X9. Overwriting a field and reading it back.  On a thread whose
    latest checkpoint has an integer count [c], [modify_state] for a box
    whose stored key is a channel other than count and retrieved_docs,
    acting as a stage [n] that exists, appends one checkpoint written as
    an update by [n]; [get_state] for the same box then returns the new
    value; the next stage is the one that follows [n] (for the drafter,
    what [should_continue] says on the new values); every other stored
    field is kept, except the count, which is written back through its
    adding channel and becomes [c + c]. *)
Theorem X9_modify_read_back dep key asnode (X : value) w ck c n :
  thread_ts_of (thread w) = None →
  latest (graph_of w) (thread_id_of (thread w)) = Some ck →
  ck_values ck !! "count" = Some (VInt c) →
  node_of_name dep (lookup_name (node_map dep) asnode) = Some n →
  lookup_name (write_key_map dep) key ∈ channels →
  lookup_name (write_key_map dep) key ≠ "count" →
  lookup_name (write_key_map dep) key ≠ "retrieved_docs" →
  X ≠ VNone →
  value_of (get_state dep key (modify_state dep key asnode X w)) = X
  ∧ ∃ new,
      log_of (graph_of (modify_state dep key asnode X w)) (thread_id_of (thread w))
        = log_of (graph_of w) (thread_id_of (thread w)) ++ [new]
      ∧ ck_source new = SUpdate n
      ∧ ck_next new = next_after n (ck_values new)
      ∧ ck_values new !! "count" = Some (VInt (c + c))
      ∧ (∀ k v, k ≠ lookup_name (write_key_map dep) key → k ≠ "count" →
           ck_values ck !! k = Some v → ck_values new !! k = Some v).
Proof.
  intros Hts Hl Hc Hn Hin Hnc Hnd HX.
  set (k := lookup_name (write_key_map dep) key) in *.
  assert (∃ new,
    ck_source new = SUpdate n
    ∧ ck_next new = next_after n (ck_values new)
    ∧ latest (graph_of (modify_state dep key asnode X w)) (thread_id_of (thread w))
        = Some new
    ∧ log_of (graph_of (modify_state dep key asnode X w)) (thread_id_of (thread w))
        = log_of (graph_of w) (thread_id_of (thread w)) ++ [new]
    ∧ ck_values new !! k = Some X
    ∧ ck_values new !! "count" = Some (VInt (c + c))
    ∧ (∀ k' v, k' ≠ k → k' ≠ "count" →
         ck_values ck !! k' = Some v → ck_values new !! k' = Some v))
    as (new & Hsrc & Hnx & Hl' & Hlog & Hk & Hcnt & Hkeep).
  { unfold modify_state.
    assert (Engine.get_state (graph_of w) (thread w)
            = snapshot_of (thread_id_of (thread w)) ck) as ->.
    { unfold Engine.get_state. rewrite Hts. unfold latest in Hl. by rewrite Hl. }
    fold k. cbn [values snapshot_of].
    set (upd := backfill required_keys (ck_values ck) (<[k:=X]> (ck_values ck))).
    assert (upd !! k = Some X) as Hup
      by (apply backfill_keeps; by rewrite lookup_insert_eq).
    assert (∀ k' v, k' ≠ k → ck_values ck !! k' = Some v → upd !! k' = Some v) as Hukeep
      by (intros k' v Hne Hk'; apply backfill_keeps; by rewrite lookup_insert_ne).
    unfold update_state. cbn [node_of_value]. rewrite Hn.
    assert (latest_values (graph_of w) (thread_id_of (thread w)) = ck_values ck) as ->
      by (unfold latest_values; by rewrite Hl).
    destruct (apply_writes_ok (ck_values ck) upd) as [v' Hv'].
    { intros x Hx. rewrite (Hukeep "count" (VInt c)) in Hx by done.
      injection Hx as <-. unfold get. by rewrite Hc. }
    rewrite Hv'. cbn [graph_of set_graph].
    destruct (latest_append (thread_id_of (thread w)) (SUpdate n) v' (next_after n v')
                (graph_of w)) as (new & Hlat & Hv & Hnx & Hsrc & _).
    exists new. rewrite Hv.
    split; [done|]. split; [by rewrite Hnx|]. split; [done|].
    split.
    { rewrite log_of_append. unfold latest in Hlat.
      rewrite log_of_append, last_snoc in Hlat. by injection Hlat as <-. }
    split; [by apply (apply_writes_set _ _ _ _ _ Hv')|].
    split.
    { apply (apply_writes_count _ _ _ _ _ Hv' (Hukeep "count" (VInt c) ltac:(done) Hc)).
      unfold get. by rewrite Hc. }
    intros k' v Hnp Hnc' Hk'.
    destruct (decide (k' ∈ channels)) as [Hin'|Hout].
    - apply (apply_writes_set _ _ _ _ _ Hv'); [done|done|]. by apply Hukeep.
    - by rewrite (apply_writes_other _ _ _ _ Hv' Hout). }
  split; [|by exists new].
  unfold get_state.
  assert (thread (modify_state dep key asnode X w) = thread w) as Hthr.
  { unfold modify_state. by destruct (update_state _ _ _ _ _). }
  assert (Engine.get_state (graph_of (modify_state dep key asnode X w))
            (thread (modify_state dep key asnode X w))
          = snapshot_of (thread_id_of (thread w)) new) as ->.
  { rewrite Hthr. unfold Engine.get_state. rewrite Hts.
    unfold latest in Hl'. by rewrite Hl'. }
  rewrite read_key_write_key. fold k. cbn [values snapshot_of]. rewrite Hk.
  cbn [value_of].
  rewrite (proj2 (String.eqb_neq k "retrieved_docs")) by done.
  by destruct X.
Qed.

Lemma X9_witness :
  value_of (get_state CourseDesigner "design"
              (modify_state CourseDesigner "design" "writer" (VStr "X") drafted))
  = VStr "X".
Proof.
  assert (∃ ck, latest (graph_of drafted) (thread_id_of (thread drafted)) = Some ck
                ∧ ck_values ck !! "count" = Some (VInt 3)) as (ck & Hl & Hc).
  { eexists. split; vm_compute; reflexivity. }
  assert (thread_ts_of (thread drafted) = None) as Hts by (vm_compute; reflexivity).
  assert (lookup_name (write_key_map CourseDesigner) "design" ∈ channels) as Hin
    by in_channels.
  assert (lookup_name (write_key_map CourseDesigner) "design" ≠ "count") as H1
    by (vm_compute; discriminate).
  assert (lookup_name (write_key_map CourseDesigner) "design" ≠ "retrieved_docs") as H2
    by (vm_compute; discriminate).
  assert (VStr "X" ≠ VNone) as H3 by discriminate.
  exact (proj1 (X9_modify_read_back CourseDesigner "design" "writer" (VStr "X") drafted
                  ck 3 Drafter Hts Hl Hc eq_refl Hin H1 H2 H3)).
Defined.

(** ** The parameter form *)

Import Params.

(** X10. The file name [save_new_parameters] builds from an ASCII title
    has one character per character of the title, each a lower-case
    letter, a digit, [-] or [_]: no title puts a path separator, a dot or a
    space into the name. *)
Theorem X10_safe_title title :
  is_ascii title = true →
  String.length (safe_title title) = String.length title
  ∧ string_forall is_safe_char (safe_title title) = true.
Proof.
  intros _. unfold safe_title.
  induction title as [|c s IH]; [done|].
  destruct IH as [IH1 IH2]. cbn [string_map String.length string_forall].
  split; [by rewrite IH1|]. rewrite IH2, andb_true_r.
  clear. destruct c as [[] [] [] [] [] [] [] []]; vm_compute; reflexivity.
Qed.

Lemma X10_witness :
  is_ascii "ESG Plan 2024/25 (v1.0)" = true
  ∧ String.length (safe_title "ESG Plan 2024/25 (v1.0)") = 23%nat
  ∧ string_forall is_safe_char (safe_title "ESG Plan 2024/25 (v1.0)") = true.
Proof.
  split; [reflexivity|].
  exact (X10_safe_title "ESG Plan 2024/25 (v1.0)" eq_refl).
Defined.

(** *** Splitting and joining *)

Lemma split_on_nonempty sep s : split_on sep s ≠ [].
Proof.
  induction s as [|c s IH]; [done|]. simpl.
  destruct (Ascii.eqb c sep); [done|]. by destruct (split_on sep s).
Qed.

(** A text without the separator is one piece. *)
Lemma split_on_one sep s : contains_char sep s = false → split_on sep s = [s].
Proof.
  induction s as [|c s IH]; [done|]. simpl. intros H.
  apply orb_false_iff in H as [Hc Hs].
  rewrite Ascii.eqb_sym, Hc. by rewrite (IH Hs).
Qed.

Lemma split_on_app sep a rest :
  contains_char sep a = false →
  split_on sep (a +:+ String sep rest) = a :: split_on sep rest.
Proof.
  induction a as [|c a IH]; simpl; intros H.
  - by rewrite Ascii.eqb_refl.
  - apply orb_false_iff in H as [Hc Ha].
    rewrite Ascii.eqb_sym, Hc. by rewrite (IH Ha).
Qed.

(** The pieces of a joined list: the first area, then each further area
    behind the blank that follows the comma. *)
Lemma split_on_areas_text a l :
  Forall (λ x, contains_char "," x = false) (a :: l) →
  split_on "," (areas_text (a :: l)) = a :: (String " " <$> l).
Proof.
  revert a. induction l as [|b l IH]; intros a Hall.
  - apply Forall_cons in Hall as [Ha _]. by apply split_on_one.
  - apply Forall_cons in Hall as [Ha Hl].
    change (areas_text (a :: b :: l))
      with (a +:+ String "," (String " " (areas_text (b :: l)))).
    rewrite (split_on_app _ _ _ Ha).
    change (split_on "," (String " " (areas_text (b :: l))))
      with (match split_on "," (areas_text (b :: l)) with
            | piece :: pieces => String " " piece :: pieces
            | [] => [String " " EmptyString]
            end).
    by rewrite (IH b Hl).
Qed.

Lemma strip_blank s : strip (String " " s) = strip s.
Proof. done. Qed.

Lemma areas_list_cons_keep a pieces :
  strip a ≠ EmptyString →
  strip <$> List.filter (λ area, truthy (VStr (strip area))) (a :: pieces)
  = strip a :: (strip <$> List.filter (λ area, truthy (VStr (strip area))) pieces).
Proof.
  intros H. cbn [List.filter truthy].
  by rewrite (proj2 (String.eqb_neq _ _) H).
Qed.

Lemma areas_list_areas_text (areas : list string) :
  Forall clean areas → areas_list (areas_text areas) = areas.
Proof.
  intros Hall. destruct areas as [|a l]; [done|].
  unfold areas_list. rewrite split_on_areas_text.
  2:{ eapply Forall_impl; [exact Hall|]. by intros x (_ & _ & ? & _). }
  apply Forall_cons in Hall as [(_ & Hne & _ & Hs) Hl].
  rewrite areas_list_cons_keep by (by rewrite Hs). rewrite Hs. f_equal.
  induction l as [|b l IH]; [done|].
  apply Forall_cons in Hl as [(_ & Hbne & _ & Hbs) Hl].
  cbn [fmap list_fmap]. rewrite areas_list_cons_keep by (by rewrite strip_blank, Hbs).
  rewrite strip_blank, Hbs. f_equal. by apply IH.
Qed.

(** X11. Loading a parameter file and saving the form again keeps the
    list of areas: the text [load_parameters] puts into the form for a list
    of clean areas (ASCII, not empty, no comma, no white space at either
    end) is split by [save_new_parameters] into the same list. *)
Theorem X11_areas_round_trip (areas : list string) :
  Forall clean areas → areas_list (areas_text areas) = areas.
Proof. apply areas_list_areas_text. Qed.

Lemma X11_witness :
  Forall clean ["climate risk"; "supply chain"; "governance"]
  ∧ areas_list (areas_text ["climate risk"; "supply chain"; "governance"])
    = ["climate risk"; "supply chain"; "governance"].
Proof.
  assert (Forall clean ["climate risk"; "supply chain"; "governance"]) as H.
  { repeat apply Forall_cons_2; [..|apply Forall_nil_2];
      (split; [reflexivity|]; split; [discriminate|]; split; reflexivity). }
  split; [exact H|]. exact (X11_areas_round_trip _ H).
Defined.
(** *** What [strip] leaves *)

Lemma append_cons c s t : String c s +:+ t = String c (s +:+ t).
Proof. done. Qed.

Lemma rev_app_append s : ∀ t, String.rev_app s t = String.rev s +:+ t.
Proof.
  unfold String.rev. induction s as [|c s IH]; intros t; [done|].
  cbn [String.rev_app]. rewrite (IH (String c t)), (IH (String c EmptyString)).
  clear. induction (String.rev_app s EmptyString) as [|d r IHr]; [done|].
  by rewrite !append_cons, IHr.
Qed.

Lemma rev_cons c s : String.rev (String c s) = String.rev s +:+ String c EmptyString.
Proof. unfold String.rev at 1. cbn [String.rev_app]. apply rev_app_append. Qed.

Lemma rev_app_snoc s c : ∀ t,
  String.rev_app (s +:+ String c EmptyString) t = String c (String.rev_app s t).
Proof.
  induction s as [|d s IH]; intros t; [done|].
  rewrite append_cons. cbn [String.rev_app]. apply IH.
Qed.

Lemma rev_snoc s c : String.rev (s +:+ String c EmptyString) = String c (String.rev s).
Proof. apply rev_app_snoc. Qed.

Lemma rev_involutive s : String.rev (String.rev s) = s.
Proof.
  induction s as [|c s IH]; [done|]. by rewrite rev_cons, rev_snoc, IH.
Qed.

Lemma lstrip_cases s :
  lstrip s = EmptyString
  ∨ ∃ c s', lstrip s = String c s' ∧ is_space c = false.
Proof.
  induction s as [|c s IH]; [by left|]. cbn [lstrip].
  destruct (is_space c) eqn:Hc; [exact IH|]. right. by exists c, s.
Qed.

Lemma lstrip_idem s : lstrip (lstrip s) = lstrip s.
Proof.
  destruct (lstrip_cases s) as [->|(c & s' & -> & Hc)]; [done|].
  cbn [lstrip]. by rewrite Hc.
Qed.

Lemma lstrip_snoc s c :
  is_space c = false →
  lstrip (s +:+ String c EmptyString) = lstrip s +:+ String c EmptyString.
Proof.
  intros Hc. induction s as [|d s IH].
  - change (EmptyString +:+ String c EmptyString) with (String c EmptyString).
    cbn [lstrip]. by rewrite Hc.
  - rewrite append_cons. cbn [lstrip]. destruct (is_space d); [exact IH|done].
Qed.

(** [strip] has nothing left to do on its own result. *)
Lemma strip_idem s : strip (strip s) = strip s.
Proof.
  unfold strip at 2 3.
  destruct (lstrip_cases s) as [->|(c & y & -> & Hc)]; [done|].
  rewrite rev_cons, (lstrip_snoc _ _ Hc), rev_snoc.
  unfold strip. cbn [lstrip]. rewrite Hc.
  by rewrite rev_cons, rev_involutive, (lstrip_snoc _ _ Hc), lstrip_idem, rev_snoc.
Qed.

Lemma string_forall_rev_app p s : ∀ t,
  string_forall p (String.rev_app s t) = string_forall p s && string_forall p t.
Proof.
  induction s as [|c s IH]; intros t; [done|].
  cbn [String.rev_app string_forall]. rewrite IH. cbn [string_forall].
  by destruct (p c), (string_forall p s).
Qed.

Lemma string_forall_lstrip p s :
  string_forall p s = true → string_forall p (lstrip s) = true.
Proof.
  induction s as [|c s IH]; [done|]. cbn [lstrip string_forall].
  intros H. apply andb_true_iff in H as [Hc Hs].
  destruct (is_space c); [by apply IH|]. cbn [string_forall]. by rewrite Hc, Hs.
Qed.

Lemma string_forall_strip p s :
  string_forall p s = true → string_forall p (strip s) = true.
Proof.
  intros H. unfold strip, String.rev.
  rewrite string_forall_rev_app, andb_true_r.
  apply string_forall_lstrip.
  rewrite string_forall_rev_app, andb_true_r.
  by apply string_forall_lstrip.
Qed.

(** [contains_char c s = false] as a [string_forall]. *)
Lemma contains_char_forall c s :
  contains_char c s = negb (string_forall (λ d, negb (Ascii.eqb c d)) s).
Proof.
  induction s as [|d s IH]; [done|]. cbn [contains_char string_forall].
  rewrite IH. by destruct (Ascii.eqb c d).
Qed.

Lemma contains_char_strip c s :
  contains_char c s = false → contains_char c (strip s) = false.
Proof.
  rewrite !contains_char_forall. intros H%negb_false_iff.
  apply negb_false_iff. by apply string_forall_strip.
Qed.

Lemma split_on_forall p sep s :
  string_forall p s = true →
  Forall (λ x, string_forall p x = true) (split_on sep s).
Proof.
  induction s as [|c s IH]; [by repeat constructor|].
  cbn [string_forall split_on]. intros H. apply andb_true_iff in H as [Hc Hs].
  specialize (IH Hs).
  destruct (Ascii.eqb c sep); [by constructor|].
  destruct (split_on sep s) as [|piece pieces].
  - repeat constructor. cbn [string_forall]. by rewrite Hc.
  - apply Forall_cons in IH as [Hp Hps]. constructor; [|done].
    cbn [string_forall]. by rewrite Hc, Hp.
Qed.

(** No piece of a split holds the separator. *)
Lemma split_on_no_sep sep s :
  Forall (λ x, contains_char sep x = false) (split_on sep s).
Proof.
  induction s as [|c s IH]; [by repeat constructor|].
  cbn [split_on]. destruct (Ascii.eqb c sep) eqn:Hc; [by constructor|].
  destruct (split_on sep s) as [|piece pieces].
  - repeat constructor. cbn [contains_char]. by rewrite Ascii.eqb_sym, Hc.
  - apply Forall_cons in IH as [Hp Hps]. constructor; [|done].
    cbn [contains_char]. by rewrite Ascii.eqb_sym, Hc, Hp.
Qed.

(** X12. Whatever ASCII text is typed into the areas box, every area
    [save_new_parameters] stores is clean: not empty, without a comma and
    without white space at either end.  With X11: the stored list survives
    being loaded into the form and saved again unchanged. *)
Theorem X12_areas_clean areas :
  is_ascii areas = true →
  Forall clean (areas_list areas)
  ∧ areas_list (areas_text (areas_list areas)) = areas_list areas.
Proof.
  intros Hascii.
  assert (Forall clean (areas_list areas)) as Hclean.
  { unfold areas_list. apply Forall_fmap, Forall_forall. intros p Hp.
    apply list_elem_of_In, filter_In in Hp as [Hp Hkeep].
    apply list_elem_of_In in Hp.
    pose proof (proj1 (Forall_forall _ _) (split_on_forall is_ascii_char "," areas Hascii)
                  p Hp) as Hpa.
    pose proof (proj1 (Forall_forall _ _) (split_on_no_sep "," areas) p Hp) as Hpc.
    cbn [truthy] in Hkeep. apply negb_true_iff, String.eqb_neq in Hkeep.
    split; [by apply string_forall_strip|]. split; [done|].
    split; [by apply contains_char_strip|apply strip_idem]. }
  split; [exact Hclean|]. by apply areas_list_areas_text.
Qed.

Lemma X12_witness :
  is_ascii " climate risk ,, supply chain,governance ,  " = true
  ∧ Forall clean (areas_list " climate risk ,, supply chain,governance ,  ").
Proof.
  split; [reflexivity|].
  exact (proj1 (X12_areas_clean " climate risk ,, supply chain,governance ,  " eq_refl)).
Defined.
